(** * incomeClassifier: the decision tree of [decision_tree.py]

    A shallow embedding of [src/decision_tree.py] and the properties of it
    that the specification states.

    - A Python value of a record is an [int] or a [str]; a record (a [dict],
      ordered by insertion) is an association list.
    - A Python exception is a [Raise] in the [result] monad.
    - Python's [float] is IEEE binary64, which is Rocq's primitive [float];
      the numbers [0] and [-1] that the source writes as [int] where it later
      compares them with or adds them to a [float] are the floats of the same
      value.  The counts that are divided are converted exactly as long as
      they are below [2^53].
    - Two built-ins whose code is not part of the repository are taken as
      the fields of [PyRuntime]: [int] on a [str] and [math.log(x, 2)].
    - The expression of the information gain is also written over an
      [arithmetic], of which binary64 is one instance and the real numbers
      another. *)

From Stdlib Require Import ZArith List String Ascii Bool Lia Floats Uint63.
From Stdlib Require Import Permutation.
From Stdlib Require Import Reals Lra.
Import ListNotations.

Set Warnings "-register-all".
Local Open Scope string_scope.
Local Open Scope Z_scope.
Local Open Scope list_scope.

(** ** Values, exceptions, the error monad *)

Inductive value : Type :=
| VInt (z : Z)
| VStr (s : string).

Inductive exn : Type :=
| KeyError
| ValueError
| TypeError
| IndexError
| OutOfFuel.

Inductive result (A : Type) : Type :=
| Ok (a : A)
| Raise (e : exn).

Arguments Ok {A} a.
Arguments Raise {A} e.

Definition bind {A B : Type} (m : result A) (f : A -> result B) : result B :=
  match m with
  | Ok a => f a
  | Raise e => Raise e
  end.

Notation "x <- m ;; k" := (bind m (fun x => k))
  (at level 61, m at next level, right associativity).
Notation "' p <- m ;; k" := (bind m (fun x => match x with p => k end))
  (at level 61, p pattern, m at next level, right associativity).

Fixpoint mapM {A B : Type} (f : A -> result B) (l : list A) : result (list B) :=
  match l with
  | [] => Ok []
  | x :: l' => y <- f x ;; ys <- mapM f l' ;; Ok (y :: ys)
  end.

Fixpoint foldM {A S : Type} (f : S -> A -> result S) (l : list A) (s : S)
  : result S :=
  match l with
  | [] => Ok s
  | x :: l' => s' <- f s x ;; foldM f l' s'
  end.

(** The built-ins the module calls and the repository does not define. *)
Class PyRuntime : Type := {
  (** [int(s)] for a [str]: [None] stands for [ValueError]. *)
  int_of_str : string -> option Z;
  (** [math.log(x, 2)], called on positive arguments only. *)
  log2 : float -> float
}.

Definition value_eqb (a b : value) : bool :=
  match a, b with
  | VInt x, VInt y => Z.eqb x y
  | VStr s, VStr t => String.eqb s t
  | _, _ => false
  end.

(** [a < b]: defined between two ints and between two strs. *)
Definition value_lt (a b : value) : result bool :=
  match a, b with
  | VInt x, VInt y => Ok (x <? y)
  | VStr s, VStr t => Ok (String.ltb s t)
  | _, _ => Raise TypeError
  end.

Definition value_ltb (a b : value) : bool :=
  match value_lt a b with
  | Ok b => b
  | Raise _ => false
  end.

Definition is_int (v : value) : bool :=
  match v with VInt _ => true | VStr _ => false end.

(** ** Records *)

Definition record : Type := list (string * value).

Definition keys (r : record) : list string := map fst r.

(** [r[k]] *)
Fixpoint getitem (k : string) (r : record) : result value :=
  match r with
  | [] => Raise KeyError
  | (k', v) :: r' => if String.eqb k' k then Ok v else getitem k r'
  end.

(** [r[k]] where [k] may be [None], which is no key of a record. *)
Definition getitem_opt (k : option string) (r : record) : result value :=
  match k with
  | Some a => getitem a r
  | None => Raise KeyError
  end.

(** [data[0]] *)
Definition first {A : Type} (l : list A) : result A :=
  match l with
  | [] => Raise IndexError
  | x :: _ => Ok x
  end.

(** [l.remove(x)]: the first occurrence goes, [ValueError] when there is none. *)
Fixpoint list_remove (x : string) (l : list string) : result (list string) :=
  match l with
  | [] => Raise ValueError
  | y :: l' =>
      if String.eqb y x then Ok l'
      else (r <- list_remove x l' ;; Ok (y :: r))
  end.

(** [x in l] *)
Definition value_in (x : value) (l : list value) : bool :=
  existsb (value_eqb x) l.

(** [set(l)], as the list of the distinct values of [l]. *)
Fixpoint py_set (l : list value) : list value :=
  match l with
  | [] => []
  | x :: l' => if value_in x l' then py_set l' else x :: py_set l'
  end.

(** [sorted(data, key=lambda i: i[attribute])]: the keys are computed first;
    the sort is stable; comparing an [int] with a [str] is a [TypeError]. *)
Fixpoint insert_by_key (kx : value * record) (l : list (value * record))
  : list (value * record) :=
  match l with
  | [] => [kx]
  | ky :: l' =>
      if value_ltb (fst ky) (fst kx) then ky :: insert_by_key kx l'
      else kx :: ky :: l'
  end.

Definition homogeneous (l : list value) : bool :=
  forallb is_int l || forallb (fun v => negb (is_int v)) l.

Definition sorted (data : list record) (attribute : string)
  : result (list record) :=
  ks <- mapM (getitem attribute) data ;;
  if homogeneous ks
  then Ok (map snd (fold_right insert_by_key [] (combine ks data)))
  else Raise TypeError.

(** [float(n)] for a count [n]. *)
Definition of_nat (n : nat) : float :=
  PrimFloat.of_uint63 (Uint63.of_Z (Z.of_nat n)).

(** [a / b] on two counts. *)
Definition fdiv (a b : nat) : float := PrimFloat.div (of_nat a) (of_nat b).

(** ** The tree *)

Inductive Node : Type :=
| mkNode (attribute : option string) (children : list Node) (label : Z)
         (category : option value) (threshold : option Z).

Definition attribute (n : Node) : option string :=
  match n with mkNode a _ _ _ _ => a end.
Definition children (n : Node) : list Node :=
  match n with mkNode _ cs _ _ _ => cs end.
Definition label (n : Node) : Z :=
  match n with mkNode _ _ l _ _ => l end.
Definition category (n : Node) : option value :=
  match n with mkNode _ _ _ c _ => c end.
Definition threshold (n : Node) : option Z :=
  match n with mkNode _ _ _ _ t => t end.

(** [Node(category, label)] before anything is assigned to it. *)
Definition new_node (category : option value) (label : Z) : Node :=
  mkNode None [] label category None.

(** The number of split edges on the longest path from a node to a leaf. *)
Fixpoint height (n : Node) : nat :=
  match n with
  | mkNode _ cs _ _ _ =>
      match cs with
      | [] => O
      | _ => S (fold_right (fun c m => Nat.max (height c) m) O cs)
      end
  end.

(** The nodes of a tree, the root first. *)
Fixpoint nodes (n : Node) : list Node :=
  match n with
  | mkNode _ cs _ _ _ => n :: flat_map nodes cs
  end.

(** Per-category class counts: a Python [dict], in insertion order, from a
    category to the pair (count of class 0, count of the other class). *)
Definition counts : Type := list (value * (nat * nat)).

(** [counts[k][i] += 1] on a [defaultdict(lambda: [0, 0])]. *)
Fixpoint counts_add (k : value) (positive : bool) (c : counts) : counts :=
  match c with
  | [] => [(k, if positive then (0, 1) else (1, 0))%nat]
  | (k', (n0, n1)) :: c' =>
      if value_eqb k' k
      then (k', if positive then (n0, S n1) else (S n0, n1)) :: c'
      else (k', (n0, n1)) :: counts_add k positive c'
  end.

(** [groups[k].append(x)] on a [defaultdict(lambda: [])]. *)
Fixpoint group_add (k : value) (x : record) (g : list (value * list record))
  : list (value * list record) :=
  match g with
  | [] => [(k, [x])]
  | (k', xs) :: g' =>
      if value_eqb k' k then (k', xs ++ [x]) :: g'
      else (k', xs) :: group_add k x g'
  end.

(** [counts[i] += 1] on a two-element list, [i] chosen by the class. *)
Definition bump (c : value) (n : nat * nat) : nat * nat :=
  if value_eqb c (VInt 0) then (S (fst n), snd n) else (fst n, S (snd n)).

(** [0 in counts] on a two-element list. *)
Definition has_zero (n : nat * nat) : bool :=
  (fst n =? 0)%nat || (snd n =? 0)%nat.

(** [p * log2 p] for the proportion [p = a / b]. *)
Definition plogp {rt : PyRuntime} (a b : nat) : float :=
  (fdiv a b * log2 (fdiv a b))%float.

(** The loop of lines 319-321: the totals of the two classes. *)
Definition totals (c : counts) : nat * nat :=
  fold_left (fun t kc => (fst t + fst (snd kc), snd t + snd (snd kc))%nat)
            c (0, 0)%nat.

(** The larger of the two counts of a category, the first on a tie being
    the second ([a if a > b else b]). *)
Definition majority_count (n : nat * nat) : nat :=
  if (snd n <? fst n)%nat then fst n else snd n.

(** [0 if a > b else 1] *)
Definition majority_of (n : nat * nat) : Z :=
  if (snd n <? fst n)%nat then 0 else 1.

(** The two keys that are no attribute to split on. *)
Definition reserved (a : string) : bool :=
  String.eqb a "fnlwgt" || String.eqb a "class".

(** The keys of a [dict] are distinct. *)
Fixpoint distinct (l : list string) : bool :=
  match l with
  | [] => true
  | x :: l' => negb (existsb (String.eqb x) l') && distinct l'
  end.

(** The first child of the category of the record, if there is one: the
    [for] loop of [decision_tree_classify]. *)
Definition matching_child (c : value) (cs : list Node) : option Node :=
  find (fun child => match category child with
                     | Some c' => value_eqb c' c
                     | None => false
                     end) cs.

(** [child.category == category] *)
Definition has_category (child : Node) (c : value) : bool :=
  match category child with
  | Some c' => value_eqb c' c
  | None => false
  end.

(** [max_depth is not None and depth > max_depth] *)
Definition exceeds (max_depth : option Z) (depth : Z) : bool :=
  match max_depth with
  | Some m => depth >? m
  | None => false
  end.

Section DecisionTree.

Context {rt : PyRuntime}.

(** [int(v)] *)
Definition py_int (v : value) : result Z :=
  match v with
  | VInt z => Ok z
  | VStr s =>
      match int_of_str s with
      | Some z => Ok z
      | None => Raise ValueError
      end
  end.

Definition represents_integer (s : value) : bool :=
  match py_int s with
  | Ok _ => true
  | Raise _ => false
  end.

(** [int(item[attribute])] *)
Definition int_item (attribute : string) (item : record) : result Z :=
  v <- getitem attribute item ;; py_int v.

Definition get_counts_threshold (data : list record) (attribute : string)
  (threshold : Z) : result counts :=
  ' (below, above) <-
    foldM (fun counts item =>
             let '(below, above) := counts in
             c <- getitem "class" item ;;
             if value_eqb c (VInt 0) then
               z <- int_item attribute item ;;
               if z <? threshold
               then Ok ((S (fst below), snd below), above)
               else (z' <- int_item attribute item ;;
                     Ok (below, (S (fst above), snd above)))
             else if value_eqb c (VInt 1) then
               z <- int_item attribute item ;;
               if z <? threshold
               then Ok ((fst below, S (snd below)), above)
               else Ok (below, (fst above, S (snd above)))
             else Ok (below, (fst above, S (snd above))))
          data ((0, 0), (0, 0))%nat ;;
  Ok [(VStr "below", below); (VStr "above", above)].

Definition get_counts (data : list record) (attribute : string)
  (threshold : option Z) : result counts :=
  match threshold with
  | Some t => get_counts_threshold data attribute t
  | None =>
      foldM (fun counts item =>
               c <- getitem "class" item ;;
               k <- getitem attribute item ;;
               Ok (counts_add k (negb (value_eqb c (VInt 0))) counts))
            data []
  end.

Definition get_information_gain (data : list record) (attribute : string)
  (threshold : option Z) : result float :=
  counts <- get_counts data attribute threshold ;;
  let total_0 := fst (totals counts) in
  let total_1 := snd (totals counts) in
  let n := List.length data in
  let entropy :=
    if negb (total_0 =? 0)%nat && negb (total_1 =? 0)%nat
    then (- (plogp total_0 n + plogp total_1 n))%float
    else 0%float in
  let conditional_entropy :=
    fold_left
      (fun acc kc =>
         let c0 := fst (snd kc) in
         let c1 := snd (snd kc) in
         if (c0 =? 0)%nat || (c1 =? 0)%nat then acc
         else
           let total := (c0 + c1)%nat in
           let proportion := fdiv total n in
           let label_0 := plogp c0 total in
           let label_1 := plogp c1 total in
           (acc + proportion * (label_0 + label_1))%float)
      counts 0%float in
  let conditional_entropy := (conditional_entropy * (-1))%float in
  Ok (entropy - conditional_entropy)%float.

(** The [while] loop of [get_information_gain_threshold]: the counts of
    the records before the first one not below the threshold, and the
    records from that one on. *)
Fixpoint count_below (sorted_data : list record) (attribute : string)
  (threshold : value) (counts_bt : nat * nat)
  : result ((nat * nat) * list record) :=
  match sorted_data with
  | [] => Raise IndexError
  | item :: rest =>
      v <- getitem attribute item ;;
      b <- value_lt v threshold ;;
      if b then
        c <- getitem "class" item ;;
        count_below rest attribute threshold (bump c counts_bt)
      else Ok (counts_bt, sorted_data)
  end.

Definition get_information_gain_threshold (sorted_data : list record)
  (attribute : string) (threshold : value) : result float :=
  ' (counts_bt, rest) <- count_below sorted_data attribute threshold (0, 0)%nat ;;
  counts_at <- foldM (fun counts_at item =>
                        c <- getitem "class" item ;; Ok (bump c counts_at))
                     rest (0, 0)%nat ;;
  let total_bt := (fst counts_bt + snd counts_bt)%nat in
  let total_at := (fst counts_at + snd counts_at)%nat in
  if has_zero counts_bt || has_zero counts_at then Ok 0%float
  else
    let n := List.length sorted_data in
    let probability_bt := fdiv total_bt n in
    let probability_at := fdiv total_at n in
    let conditional_bt :=
      (plogp (fst counts_bt) total_bt + plogp (snd counts_bt) total_bt)%float in
    let conditional_at :=
      (plogp (fst counts_at) total_at + plogp (snd counts_at) total_at)%float in
    Ok (probability_bt * - conditional_bt + probability_at * - conditional_at)%float.

(** The state of the loop of [find_threshold]. *)
Record search : Type := mkSearch {
  previous_class : value;
  max_info_gain : float;
  best_threshold : value;
  tested : list value
}.

Definition find_threshold_step (sorted_data : list record) (attribute : string)
  (s : search) (item : record) : result search :=
  v <- getitem attribute item ;;
  c <- getitem "class" item ;;
  if negb (value_in v (tested s)) && negb (value_eqb c (previous_class s)) then
    g <- get_information_gain_threshold sorted_data attribute v ;;
    if (max_info_gain s <? g)%float
    then Ok (mkSearch c g v (tested s ++ [v]))
    else Ok (mkSearch c (max_info_gain s) (best_threshold s) (tested s ++ [v]))
  else Ok (mkSearch c (max_info_gain s) (best_threshold s) (tested s)).

Definition find_threshold (data : list record) (attribute : string) : result Z :=
  sorted_data <- sorted data attribute ;;
  s <- foldM (find_threshold_step sorted_data attribute) sorted_data
             (mkSearch (VInt (-1)) 0%float (VInt 0) []) ;;
  py_int (best_threshold s).

Definition majority_label (data : list record) : result Z :=
  n <- foldM (fun n data_point =>
                c <- getitem "class" data_point ;; Ok (bump c n))
             data (0, 0)%nat ;;
  Ok (majority_of n).

Definition split_on_attribute_threshold (data : list record)
  (attribute : string) (threshold : Z) : result (list (list record * value)) :=
  ' (below, above) <-
    foldM (fun data_categories data_point =>
             let '(below, above) := data_categories in
             z <- int_item attribute data_point ;;
             if z <? threshold
             then Ok (below ++ [data_point], above)
             else Ok (below, above ++ [data_point]))
          data ([], []) ;;
  Ok [(below, VStr "below"); (above, VStr "above")].

Definition split_on_attribute (data : list record) (attribute : string)
  (threshold : option Z) : result (list (list record * value)) :=
  match threshold with
  | Some t => split_on_attribute_threshold data attribute t
  | None =>
      data_categories <-
        foldM (fun g data_point =>
                 k <- getitem attribute data_point ;;
                 Ok (group_add k data_point g))
              data [] ;;
      Ok (map (fun kx => (snd kx, fst kx)) data_categories)
  end.

(** *** The baseline *)

(** Lines 33-36 and 45-48: the counts of [attribute], at the threshold found
    for [threshold_of] when the first record's value of [attribute] is an
    integer. *)
Definition baseline_counts (data : list record) (attribute threshold_of : string)
  : result counts :=
  d0 <- first data ;;
  v <- getitem attribute d0 ;;
  if represents_integer v
  then (t <- find_threshold data threshold_of ;;
        get_counts data attribute (Some t))
  else get_counts data attribute None.

Definition baseline_step (data : list record)
  (s : float * option string) (attribute : string)
  : result (float * option string) :=
  if String.eqb attribute "fnlwgt" then Ok s
  else
    counts <- baseline_counts data attribute attribute ;;
    let correct :=
      fold_left (fun acc kc => (acc + majority_count (snd kc))%nat) counts O in
    let ratio := fdiv correct (List.length data) in
    if (fst s <? ratio)%float then Ok (ratio, Some attribute) else Ok s.

Definition find_baseline_attribute (data : list record)
  : result (string * list (value * Z)) :=
  d0 <- first data ;;
  ' (best_ratio, best_attribute) <-
    foldM (baseline_step data) (keys d0) (0%float, None) ;;
  match best_attribute with
  | None => Raise KeyError
  | Some best =>
      (* [attribute] is the variable of the loop above: the last key *)
      let attribute := last (keys d0) "" in
      counts <- baseline_counts data best attribute ;;
      Ok (best, map (fun kc => (fst kc, majority_of (snd kc))) counts)
  end.

(** [labels[k]] *)
Fixpoint label_of (k : value) (labels : list (value * Z)) : result Z :=
  match labels with
  | [] => Raise KeyError
  | (k', l) :: labels' => if value_eqb k' k then Ok l else label_of k labels'
  end.

Definition baseline_classify (item : record) (attribute : string)
  (labels : list (value * Z)) (threshold : option Z) : result Z :=
  item_category <- getitem attribute item ;;
  match threshold with
  | Some t =>
      z <- int_item attribute item ;;
      if z <? t then label_of (VStr "below") labels
      else label_of (VStr "above") labels
  | None => label_of item_category labels
  end.

(** *** Classification *)

Fixpoint decision_tree_classify (item : record) (node : Node) {struct node}
  : result Z :=
  match node with
  | mkNode attribute children label _ threshold =>
      match children with
      | [] => Ok label
      | child0 :: others =>
          category <- getitem_opt attribute item ;;
          if negb (represents_integer category) then
            (fix search (cs : list Node) : result Z :=
               match cs with
               | [] => decision_tree_classify item child0
               | child :: cs' =>
                   if has_category child category
                   then decision_tree_classify item child
                   else search cs'
               end) children
          else
            z <- py_int category ;;
            t <- match threshold with
                 | Some t => Ok t
                 | None => Raise TypeError
                 end ;;
            if z <? t then decision_tree_classify item child0
            else match others with
                 | child1 :: _ => decision_tree_classify item child1
                 | [] => Raise IndexError
                 end
      end
  end.

(** *** Construction *)

(** The gain of one attribute and the threshold it is computed at
    (lines 153-158). *)
Definition attribute_gain (data : list record) (attribute : string)
  : result (float * option Z) :=
  d0 <- first data ;;
  v <- getitem attribute d0 ;;
  if represents_integer v
  then (threshold <- find_threshold data attribute ;;
        information_gain <- get_information_gain data attribute (Some threshold) ;;
        Ok (information_gain, Some threshold))
  else (information_gain <- get_information_gain data attribute None ;;
        Ok (information_gain, None)).

(** One round of the loop of lines 152-162 on the state
    [(max_information_gain, best_attribute, best_threshold)]. *)
Definition select_step (data : list record)
  (s : float * option string * option Z) (attribute : string)
  : result (float * option string * option Z) :=
  g <- attribute_gain data attribute ;;
  if (fst (fst s) <? fst g)%float
  then Ok (fst g, Some attribute, snd g)
  else Ok s.

(** The body of the loop of lines 171-179, [recurse] being the call of
    line 179 on the subset, the category of the new node and the
    attributes left. *)
Definition build_child
  (recurse : list record -> option value -> list string -> result Node)
  (data : list record) (attributes : list string) (best_attribute : string)
  (subset : list record * value) : result Node :=
  if (List.length (fst subset) =? 0)%nat
  then (l <- majority_label data ;; Ok (new_node (Some (snd subset)) l))
  else (new_attributes <- list_remove best_attribute attributes ;;
        recurse (fst subset) (Some (snd subset)) new_attributes).

(** [_build_decision_tree(data, node, attributes, max_depth, depth)], where
    [node] is a fresh [Node(category)]: the node as the call leaves it.
    [fuel] bounds the depth of the recursion. *)
Fixpoint _build_decision_tree (fuel : nat) (data : list record)
  (category : option value) (attributes : list string)
  (max_depth : option Z) (depth : Z) : result Node :=
  match fuel with
  | O => Raise OutOfFuel
  | S fuel' =>
      let depth := depth + 1 in
      data_classes <- mapM (getitem "class") data ;;
      label <- majority_label data ;;
      if (List.length attributes =? 0)%nat
         || (List.length data_classes =? List.length (py_set data_classes))%nat
      then Ok (new_node category label)
      else if exceeds max_depth depth then Ok (new_node category label)
      else
        s <- foldM (select_step data) attributes ((-1)%float, None, None) ;;
        d0 <- first data ;;
        match snd (fst s) with
        | None => Raise KeyError
        | Some best_attribute =>
            let best_threshold := snd s in
            v <- getitem best_attribute d0 ;;
            subsets <- (if represents_integer v
                        then split_on_attribute data best_attribute best_threshold
                        else split_on_attribute data best_attribute None) ;;
            children <-
              mapM (build_child
                      (fun subset category new_attributes =>
                         _build_decision_tree fuel' subset category
                           new_attributes max_depth depth)
                      data attributes best_attribute)
                   subsets ;;
            Ok (mkNode (Some best_attribute) children label category
                       best_threshold)
        end
  end.

Definition build_decision_tree (data : list record) (max_depth : option Z)
  : result Node :=
  d0 <- first data ;;
  attributes <- list_remove "fnlwgt" (keys d0) ;;
  attributes <- list_remove "class" attributes ;;
  _build_decision_tree (S (List.length attributes)) data None attributes
    max_depth 0.

(** *** Well-formed input *)

(** [r] has every key of [d], with a value of the same kind (integer or
    not). *)
Definition same_types (d r : record) : bool :=
  forallb (fun kv =>
             match getitem (fst kv) r with
             | Ok v => Bool.eqb (represents_integer v) (represents_integer (snd kv))
             | Raise _ => false
             end) d.

(** A dataset is well formed when it is not empty, the keys of a record
    are distinct, and every record has the keys of the first one, the kind
    of every attribute being the same in all the records. *)
Definition well_formed_dataset (data : list record) : bool :=
  match data with
  | [] => false
  | d0 :: _ => distinct (keys d0) && forallb (same_types d0) data
  end.

(** A record is well formed for a dataset when it has the attributes of
    the dataset, each of the kind the dataset fixes (the label and the
    weight may be missing: the record is one to classify). *)
Definition well_formed_record (data : list record) (item : record) : bool :=
  match data with
  | [] => false
  | d0 :: _ => same_types (filter (fun kv => negb (reserved (fst kv))) d0) item
  end.

(** What classification needs of a node, [d0] being the first record of
    the dataset: a binary label and, when the node has children, an
    attribute of [d0] that is not reserved, with a threshold and two
    children when its value in [d0] is an integer. *)
Definition node_ok (d0 : record) (n : Node) : Prop :=
  (label n = 0 \/ label n = 1) /\
  (children n <> [] ->
   exists a v0,
     attribute n = Some a /\ reserved a = false /\ getitem a d0 = Ok v0 /\
     (represents_integer v0 = true ->
      (exists t, threshold n = Some t) /\
      exists c0 c1, children n = [c0; c1])).

(** A node with a threshold has an attribute and two children, of the
    categories [below] and [above] in this order. *)
Definition threshold_split (n : Node) : Prop :=
  forall t, threshold n = Some t ->
    exists a below above,
      attribute n = Some a /\ children n = [below; above] /\
      category below = Some (VStr "below") /\
      category above = Some (VStr "above").

(** [int(r[attribute]) < threshold], false when that raises. *)
Definition below_threshold (attribute : string) (threshold : Z) (r : record)
  : bool :=
  match int_item attribute r with
  | Ok z => z <? threshold
  | Raise _ => false
  end.

(** [int(r[attribute]) >= threshold], false when that raises. *)
Definition above_threshold (attribute : string) (threshold : Z) (r : record)
  : bool :=
  match int_item attribute r with
  | Ok z => negb (z <? threshold)
  | Raise _ => false
  end.

End DecisionTree.

(** ** A runtime to run the model with

    [int] reads an optionally signed decimal numeral; the logarithm is
    exact at the powers of two and linear between two of them. *)

Definition digit_of (c : ascii) : option Z :=
  let n := Z.of_N (N_of_ascii c) in
  if (48 <=? n) && (n <=? 57) then Some (n - 48) else None.

Fixpoint digits_of (s : string) (acc : Z) : option Z :=
  match s with
  | EmptyString => Some acc
  | String c s' =>
      match digit_of c with
      | Some d => digits_of s' (10 * acc + d)
      | None => None
      end
  end.

Definition decimal_of (s : string) : option Z :=
  match s with
  | EmptyString => None
  | String "-" (String c s') => option_map Z.opp (digits_of (String c s') 0)
  | String "+" (String c s') => digits_of (String c s') 0
  | _ => digits_of s 0
  end.

Definition float_of_Z (z : Z) : float :=
  if z <? 0 then (- PrimFloat.of_uint63 (Uint63.of_Z (- z)))%float
  else PrimFloat.of_uint63 (Uint63.of_Z z).

Definition dyadic_log2 (x : float) : float :=
  let (m, e) := Z.frexp x in
  (float_of_Z (e - 1) + (2 * m - 1))%float.

Definition reference_runtime : PyRuntime :=
  {| int_of_str := decimal_of; log2 := dyadic_log2 |}.

(** ** Datasets the statements are run on *)

Definition person (age : Z) (colour : string) (class : Z) : record :=
  [("age", VInt age); ("colour", VStr colour); ("fnlwgt", VInt 1);
   ("class", VInt class)].

(** Four records, one categorical and one continuous attribute. *)
Definition colours : list record :=
  [person 20 "red" 1; person 25 "red" 1; person 30 "blue" 0;
   person 35 "blue" 0].

(** Two records of the same class. *)
Definition one_class : list record :=
  [[("age", VInt 20); ("fnlwgt", VInt 1); ("class", VInt 0)];
   [("age", VInt 30); ("fnlwgt", VInt 1); ("class", VInt 0)]].

(** The ages 20, 25, 30, 35 with the classes 0, 0, 1, 1. *)
Definition ages : list record :=
  [[("age", VInt 20); ("fnlwgt", VInt 1); ("class", VInt 0)];
   [("age", VInt 25); ("fnlwgt", VInt 1); ("class", VInt 0)];
   [("age", VInt 30); ("fnlwgt", VInt 1); ("class", VInt 1)];
   [("age", VInt 35); ("fnlwgt", VInt 1); ("class", VInt 1)]].

(** The balances -1, -1, 0, 0 with the classes 0, 1, 0, 1. *)
Definition balances : list record :=
  [[("balance", VInt (-1)); ("fnlwgt", VInt 1); ("class", VInt 0)];
   [("balance", VInt (-1)); ("fnlwgt", VInt 1); ("class", VInt 1)];
   [("balance", VInt 0); ("fnlwgt", VInt 1); ("class", VInt 0)];
   [("balance", VInt 0); ("fnlwgt", VInt 1); ("class", VInt 1)]].

(** Two continuous attributes whose thresholds differ; [hours] is the
    last key. *)
Definition worker (age hours class : Z) : record :=
  [("age", VInt age); ("fnlwgt", VInt 1); ("class", VInt class);
   ("hours", VInt hours)].

Definition workers : list record :=
  [worker 20 10 0; worker 30 10 1; worker 40 30 0; worker 40 30 1].

(** Records whose first key is the label. *)
Definition labelled_first : list record :=
  [[("class", VInt 0); ("age", VInt 20); ("fnlwgt", VInt 1)];
   [("class", VInt 1); ("age", VInt 20); ("fnlwgt", VInt 1)]].

(** Nine categories, one record of each class in each. *)
Definition pair_of (category : string) : list record :=
  [[("kind", VStr category); ("fnlwgt", VInt 1); ("class", VInt 0)];
   [("kind", VStr category); ("fnlwgt", VInt 1); ("class", VInt 1)]].

Definition nine_pairs : list record :=
  flat_map pair_of ["a"; "b"; "c"; "d"; "e"; "f"; "g"; "h"; "i"].

(** A node split on a categorical attribute, and a record whose value of
    that attribute is an integer. *)
Definition colour_node : Node :=
  mkNode (Some "colour")
         [mkNode None [] 1 (Some (VStr "red")) None;
          mkNode None [] 0 (Some (VStr "blue")) None]
         1 None None.

Definition numbered_item : record :=
  [("age", VInt 20); ("colour", VInt 5); ("fnlwgt", VInt 1)].

Definition green_item : record :=
  [("age", VInt 22); ("colour", VStr "green"); ("fnlwgt", VInt 1)].

(** The tree of [colours] with [max_depth = 1]. *)
Definition colours_depth_1 : Node :=
  mkNode (Some "colour")
         [mkNode None [] 1 (Some (VStr "red")) None;
          mkNode None [] 0 (Some (VStr "blue")) None]
         1 None None.

(** The tree of [colours] without a bound on the depth. *)
Definition colours_tree : Node :=
  mkNode (Some "colour")
         [mkNode (Some "age")
                 [mkNode None [] 1 (Some (VStr "below")) None;
                  mkNode None [] 1 (Some (VStr "above")) None]
                 1 (Some (VStr "red")) (Some 0);
          mkNode (Some "age")
                 [mkNode None [] 0 (Some (VStr "below")) None;
                  mkNode None [] 0 (Some (VStr "above")) None]
                 0 (Some (VStr "blue")) (Some 0)]
         1 None None.

(** The tree of [workers]. *)
Definition workers_tree : Node :=
  mkNode (Some "age")
         [mkNode None [] 1 (Some (VStr "below")) None;
          mkNode None [] 1 (Some (VStr "above")) None]
         1 None (Some 40).

(** The tree of [one_class]. *)
Definition one_class_tree : Node :=
  mkNode (Some "age")
         [mkNode None [] 0 (Some (VStr "below")) None;
          mkNode None [] 0 (Some (VStr "above")) None]
         0 None (Some 0).

(** ** Notions for the properties of the helper functions *)

(** [r['class'] == 0], false when the record has no class. *)
Definition is_class_0 (r : record) : bool :=
  match getitem "class" r with
  | Ok c => value_eqb c (VInt 0)
  | Raise _ => false
  end.

(** The numbers of the records of class 0 and of the other records. *)
Definition class_counts (l : list record) : nat * nat :=
  (List.length (filter is_class_0 l),
   List.length (filter (fun r => negb (is_class_0 r)) l)).

(** A line that [display] prints: the number of tabs and the triple whose
    [repr] follows them. *)
Definition line : Type := nat * (option string * option value * Z).

Definition line_of (tabs : nat) (n : Node) : line :=
  (tabs, (attribute n, category n, label n)).

(** [node.display(max_level, level)], as the list of the lines printed.
    The call on a child is [child.display(level + 1)]: its [max_level] is
    [level + 1] and its [level] is the default, 0. *)
Fixpoint display (n : Node) (max_level level : Z) : list line :=
  match n with
  | mkNode a cs l c _ =>
      (Z.to_nat level, (a, c, l))
      :: (if level >? max_level then []
          else flat_map (fun child => display child (level + 1) 0) cs)
  end.

(** Two records of different classes. *)
Definition two_classes : list record :=
  [[("age", VInt 20); ("fnlwgt", VInt 1); ("class", VInt 0)];
   [("age", VInt 30); ("fnlwgt", VInt 1); ("class", VInt 1)]].

(** A column of integers of one kind: every record has the attribute, with
    an [int] in all of them ([k = true]) or a [str] that [int] reads in all
    of them ([k = false]), and a class. *)
Definition integer_column {rt : PyRuntime} (k : bool) (a : string)
  (data : list record) : Prop :=
  Forall (fun r => (exists v, getitem a r = Ok v /\ is_int v = k
                              /\ represents_integer v = true)
                   /\ In "class" (keys r)) data.

(** Two ages crossed with two colours, two records of each pair: the class
    is 0 for the young red and the old blue ones. *)
Definition crossed : list record :=
  [person 20 "red" 0; person 20 "red" 0; person 20 "blue" 1;
   person 20 "blue" 1; person 40 "blue" 0; person 40 "blue" 0;
   person 40 "red" 1; person 40 "red" 1].

(** The tree of [crossed]. *)
Definition crossed_tree : Node :=
  mkNode (Some "age")
         [mkNode (Some "colour")
                 [mkNode None [] 0 (Some (VStr "red")) None;
                  mkNode None [] 1 (Some (VStr "blue")) None]
                 1 (Some (VStr "below")) None;
          mkNode (Some "colour")
                 [mkNode None [] 0 (Some (VStr "blue")) None;
                  mkNode None [] 1 (Some (VStr "red")) None]
                 1 (Some (VStr "above")) None]
         1 None (Some 40).

Definition young_red : record :=
  [("age", VInt 20); ("colour", VStr "red"); ("fnlwgt", VInt 1)].

Definition old_red : record :=
  [("age", VInt 40); ("colour", VStr "red"); ("fnlwgt", VInt 1)].

(** ** The gain over an arithmetic

    The operations that lines 323-338 apply to the counts: the conversion
    of a count, the literals [0] and [-1], [+], [-], [*], [/], the unary
    minus and [math.log(x, 2)]. *)
Record arithmetic : Type := {
  number : Type;
  of_count : nat -> number;
  zero : number;
  minus_one : number;
  plus : number -> number -> number;
  minus : number -> number -> number;
  times : number -> number -> number;
  divide : number -> number -> number;
  negate : number -> number;
  logarithm : number -> number
}.

(** [a / b * math.log(a / b, 2)] *)
Definition proportion_log (A : arithmetic) (a b : nat) : number A :=
  times A (divide A (of_count A a) (of_count A b))
          (logarithm A (divide A (of_count A a) (of_count A b))).

(** Lines 316-338 of [get_information_gain], after the counts: the same
    operations in the same order, on the numbers of the arithmetic; [n] is
    [len(data)]. *)
Definition information_gain_in (A : arithmetic) (counts : counts) (n : nat)
  : number A :=
  let total_0 := fst (totals counts) in
  let total_1 := snd (totals counts) in
  let entropy :=
    if negb (total_0 =? 0)%nat && negb (total_1 =? 0)%nat
    then negate A (plus A (proportion_log A total_0 n)
                          (proportion_log A total_1 n))
    else zero A in
  let conditional_entropy :=
    fold_left
      (fun acc kc =>
         let c0 := fst (snd kc) in
         let c1 := snd (snd kc) in
         if (c0 =? 0)%nat || (c1 =? 0)%nat then acc
         else
           let total := (c0 + c1)%nat in
           let proportion := divide A (of_count A total) (of_count A n) in
           let label_0 := proportion_log A c0 total in
           let label_1 := proportion_log A c1 total in
           plus A acc (times A proportion (plus A label_0 label_1)))
      counts (zero A) in
  let conditional_entropy := times A conditional_entropy (minus_one A) in
  minus A entropy conditional_entropy.

(** Python's arithmetic: binary64, with the logarithm of the runtime. *)
Definition float_arithmetic {rt : PyRuntime} : arithmetic :=
  {| number := float; of_count := of_nat; zero := 0%float;
     minus_one := (-1)%float; plus := PrimFloat.add; minus := PrimFloat.sub;
     times := PrimFloat.mul; divide := PrimFloat.div;
     negate := PrimFloat.opp; logarithm := log2 |}.

(** The arithmetic of the real numbers, without rounding. *)
Definition real_arithmetic : arithmetic :=
  {| number := R; of_count := INR; zero := 0%R; minus_one := (-1)%R;
     plus := Rplus; minus := Rminus; times := Rmult; divide := Rdiv;
     negate := Ropp; logarithm := fun x => (ln x / ln 2)%R |}.

(** [x * ln (x / t)] for two counts; it is [0] when [x = 0]. *)
Definition xlnx (x t : nat) : R := (INR x * ln (INR x / INR t))%R.

Definition total_of (p : nat * nat) : nat := (fst p + snd p)%nat.

(** The sum over the categories of one of the two counts, or of both. *)
Definition count_sum (sel : nat * nat -> nat) (c : counts) : nat :=
  fold_right (fun kc s => (sel (snd kc) + s)%nat) 0%nat c.

Definition xlnx_sum (sel : nat * nat -> nat) (c : counts) : R :=
  fold_right
    (fun kc s => (xlnx (sel (snd kc)) (fst (snd kc) + snd (snd kc)) + s)%R)
    0%R c.

(** The counts of [nine_pairs] by [kind]. *)
Definition nine_counts : counts :=
  map (fun k => (VStr k, (1, 1)%nat))
      ["a"; "b"; "c"; "d"; "e"; "f"; "g"; "h"; "i"].

(** An induction principle for trees that reaches the children. *)
Section NodeInduction.

Variable P : Node -> Prop.
Hypothesis step :
  forall a cs l c t, Forall P cs -> P (mkNode a cs l c t).

Fixpoint Node_induction (n : Node) : P n :=
  match n with
  | mkNode a cs l c t =>
      step a cs l c t
        ((fix all (cs : list Node) : Forall P cs :=
            match cs with
            | [] => Forall_nil P
            | c :: cs' => Forall_cons c (Node_induction c) (all cs')
            end) cs)
  end.

End NodeInduction.

(** A result that is a value or a Python exception: the recursion of the
    model did not stop for lack of fuel. *)
Definition pythonic {A : Type} (r : result A) : Prop :=
  match r with
  | Raise OutOfFuel => False
  | _ => True
  end.

(** ** The error monad *)

Lemma bind_Ok {A B : Type} (m : result A) (f : A -> result B) (b : B) :
  bind m f = Ok b -> exists a, m = Ok a /\ f a = Ok b.
Proof.
  destruct m as [a | e]; simpl; intros H; [eauto | discriminate].
Qed.

Ltac inv_bind H :=
  let a := fresh "x" in
  let E := fresh "E" in
  apply bind_Ok in H; destruct H as (a & E & H).

Lemma pythonic_bind {A B : Type} (m : result A) (f : A -> result B) :
  pythonic m -> (forall a, m = Ok a -> pythonic (f a)) -> pythonic (bind m f).
Proof.
  destruct m as [a | e]; simpl; intros Hm Hf; [apply Hf; reflexivity | exact Hm].
Qed.

Lemma pythonic_mapM {A B : Type} (f : A -> result B) (l : list A) :
  (forall x, In x l -> pythonic (f x)) -> pythonic (mapM f l).
Proof.
  induction l as [| x l IH]; simpl; intros H; [exact I |].
  apply pythonic_bind; [apply H; now left |].
  intros y _. apply pythonic_bind; [apply IH; intros; apply H; now right |].
  intros; exact I.
Qed.

Lemma pythonic_foldM {A S : Type} (f : S -> A -> result S) (l : list A) :
  (forall s x, In x l -> pythonic (f s x)) -> forall s, pythonic (foldM f l s).
Proof.
  induction l as [| x l IH]; simpl; intros H s; [exact I |].
  apply pythonic_bind; [apply H; now left |].
  intros s' _. apply IH. intros; apply H; now right.
Qed.

Lemma mapM_ext_in {A B : Type} (f g : A -> result B) (l : list A) :
  (forall x, In x l -> f x = g x) -> mapM f l = mapM g l.
Proof.
  induction l as [| x l IH]; simpl; intros H; [reflexivity |].
  rewrite (H x (or_introl eq_refl)), IH; [reflexivity |].
  intros; apply H; now right.
Qed.

Lemma mapM_Forall2 {A B : Type} (f : A -> result B) (l : list A) (l' : list B) :
  mapM f l = Ok l' -> Forall2 (fun x y => f x = Ok y) l l'.
Proof.
  revert l'; induction l as [| x l IH]; simpl; intros l' H.
  - injection H as <-. constructor.
  - inv_bind H. inv_bind H. injection H as <-. constructor; auto.
Qed.

Lemma foldM_invariant {A S : Type} (f : S -> A -> result S) (I : S -> Prop)
  (l : list A) :
  (forall s x s', In x l -> I s -> f s x = Ok s' -> I s') ->
  forall s s', I s -> foldM f l s = Ok s' -> I s'.
Proof.
  induction l as [| x l IH]; simpl; intros Hf s s' Hs H.
  - injection H as <-. exact Hs.
  - inv_bind H. eapply IH; [| | exact H].
    + intros; eapply Hf; eauto.
    + eapply Hf; eauto.
Qed.

Lemma Forall2_Ok_Forall {A B : Type} (f : A -> result B) (P : B -> Prop)
  (l : list A) (l' : list B) :
  Forall2 (fun x y => f x = Ok y) l l' ->
  (forall x y, In x l -> f x = Ok y -> P y) -> Forall P l'.
Proof.
  induction 1 as [| x y l l' Hxy _ IH]; intros HP; constructor.
  - apply (HP x); [now left | assumption].
  - apply IH. intros; eapply HP; eauto. now right.
Qed.

Lemma mapM_Forall {A B : Type} (f : A -> result B) (P : B -> Prop)
  (l : list A) (l' : list B) :
  mapM f l = Ok l' ->
  (forall x y, In x l -> f x = Ok y -> P y) -> Forall P l'.
Proof. intros H. apply Forall2_Ok_Forall, mapM_Forall2, H. Qed.

Lemma mapM_length {A B : Type} (f : A -> result B) (l : list A) (l' : list B) :
  mapM f l = Ok l' -> List.length l' = List.length l.
Proof.
  intros H. apply mapM_Forall2 in H.
  induction H; simpl; congruence.
Qed.

Create HintDb pythonic.

Ltac pythonic :=
  repeat first
    [ exact I
    | assumption
    | solve [auto with pythonic]
    | progress cbv beta zeta
    | apply pythonic_bind; [| intros ? _]
    | apply pythonic_foldM; intros
    | apply pythonic_mapM; intros
    | match goal with
      | |- pythonic (match ?x with _ => _ end) => destruct x
      end ].

(** ** Facts on the construction *)

Section BuildFacts.

Context {rt : PyRuntime}.

Lemma majority_of_binary (n : nat * nat) : majority_of n = 0 \/ majority_of n = 1.
Proof. unfold majority_of. destruct (snd n <? fst n)%nat; auto. Qed.

Lemma majority_label_binary (data : list record) (l : Z) :
  majority_label data = Ok l -> l = 0 \/ l = 1.
Proof.
  unfold majority_label. intros H. inv_bind H. injection H as <-.
  apply majority_of_binary.
Qed.

Lemma list_remove_length (x : string) (l l' : list string) :
  list_remove x l = Ok l' -> List.length l = S (List.length l').
Proof.
  revert l'. induction l as [| y l IH]; simpl; intros l' H; [discriminate |].
  destruct (String.eqb y x).
  - injection H as <-. reflexivity.
  - inv_bind H. injection H as <-. simpl. f_equal. auto.
Qed.

Lemma list_remove_incl (x : string) (l l' : list string) :
  list_remove x l = Ok l' -> incl l' l.
Proof.
  revert l'. induction l as [| y l IH]; simpl; intros l' H; [discriminate |].
  destruct (String.eqb y x).
  - injection H as <-. apply incl_tl, incl_refl.
  - inv_bind H. injection H as <-.
    apply incl_cons; [now left | apply incl_tl; auto].
Qed.

(** What a call of [_build_decision_tree] that returns has done. *)
Lemma build_inv (fuel : nat) (data : list record) (cat : option value)
  (attributes : list string) (max_depth : option Z) (depth : Z) (n : Node) :
  _build_decision_tree (S fuel) data cat attributes max_depth depth = Ok n ->
  exists l, majority_label data = Ok l /\
    (n = new_node cat l \/
     exists s best d0 v subsets cs,
       attributes <> [] /\
       exceeds max_depth (depth + 1) = false /\
       foldM (select_step data) attributes ((-1)%float, None, None) = Ok s /\
       snd (fst s) = Some best /\
       first data = Ok d0 /\
       getitem best d0 = Ok v /\
       (if represents_integer v
        then split_on_attribute data best (snd s)
        else split_on_attribute data best None) = Ok subsets /\
       mapM (build_child
               (fun subset category new_attributes =>
                  _build_decision_tree fuel subset category new_attributes
                    max_depth (depth + 1))
               data attributes best) subsets = Ok cs /\
       n = mkNode (Some best) cs l cat (snd s)).
Proof.
  intros H. cbn [_build_decision_tree] in H.
  inv_bind H. inv_bind H. exists x0. split; [assumption |].
  destruct (_ || _) eqn:Estop.
  { left. now injection H as <-. }
  destruct (exceeds max_depth (depth + 1)) eqn:Edepth.
  { left. now injection H as <-. }
  right. inv_bind H. inv_bind H.
  destruct (snd (fst x1)) as [best |] eqn:Ebest; [| discriminate].
  inv_bind H. inv_bind H. inv_bind H. injection H as <-.
  exists x1, best, x2, x3, x4, x5. repeat split; try assumption.
  intros ->. simpl in Estop. discriminate.
Qed.

(** *** The height of the tree *)

Lemma height_node (a : option string) (cs : list Node) (l : Z)
  (c : option value) (t : option Z) (k : nat) :
  Forall (fun child => (height child <= k)%nat) cs ->
  (height (mkNode a cs l c t) <= S k)%nat.
Proof.
  intros H. simpl. destruct cs as [| c0 cs']; [lia |].
  apply le_n_S. induction H as [| x xs Hx _ IH]; simpl; lia.
Qed.

Lemma build_child_height
  (recurse : list record -> option value -> list string -> result Node)
  (data : list record) (attributes : list string) (best : string)
  (subset : list record * value) (child : Node) (k : nat) :
  (forall s c na n, list_remove best attributes = Ok na ->
                    recurse s c na = Ok n -> (height n <= k)%nat) ->
  build_child recurse data attributes best subset = Ok child ->
  (height child <= k)%nat.
Proof.
  intros Hrec H. unfold build_child in H.
  destruct (List.length (fst subset) =? 0)%nat.
  - inv_bind H. injection H as <-. simpl. lia.
  - inv_bind H. eauto.
Qed.

Lemma build_height_depth (m : Z) (fuel : nat) :
  forall data cat attributes depth n,
    _build_decision_tree fuel data cat attributes (Some m) depth = Ok n ->
    Z.of_nat (height n) <= Z.max 0 (m - depth).
Proof.
  induction fuel as [| fuel IH]; intros data cat attributes depth n H;
    [discriminate |].
  apply build_inv in H.
  destruct H as (l & _ & [-> | (s & best & d0 & v & subsets & cs & _ & Hd & _ & _
                                 & _ & _ & _ & Hcs & ->)]).
  - simpl. lia.
  - simpl in Hd. rewrite Z.gtb_ltb in Hd. apply Z.ltb_ge in Hd.
    assert (Hh : (height (mkNode (Some best) cs l cat (snd s))
                  <= S (Z.to_nat (m - (depth + 1))))%nat).
    { apply height_node. eapply mapM_Forall; [exact Hcs |].
      intros subset child _ Hchild.
      eapply build_child_height; [| exact Hchild].
      intros s' c na n' _ Hn'. apply IH in Hn'. lia. }
    lia.
Qed.

Lemma build_height_attributes (fuel : nat) :
  forall data cat attributes max_depth depth n,
    _build_decision_tree fuel data cat attributes max_depth depth = Ok n ->
    (height n <= List.length attributes)%nat.
Proof.
  induction fuel as [| fuel IH];
    intros data cat attributes max_depth depth n H; [discriminate |].
  apply build_inv in H.
  destruct H as (l & _ & [-> | (s & best & d0 & v & subsets & cs & Hne & _ & _
                                 & _ & _ & _ & _ & Hcs & ->)]).
  - simpl. lia.
  - destruct attributes as [| a attributes']; [congruence |].
    change (List.length (a :: attributes')) with (S (List.length attributes')).
    apply height_node. eapply mapM_Forall; [exact Hcs |].
    intros subset child _ Hchild.
    eapply build_child_height; [| exact Hchild].
    intros s' c na n' Hna Hn'. apply IH in Hn'.
    apply list_remove_length in Hna. simpl in Hna. lia.
Qed.

(** *** Nothing but the recursion of the tree needs fuel *)

Lemma pythonic_getitem (k : string) (r : record) : pythonic (getitem k r).
Proof.
  induction r as [| [k' v] r IH]; simpl; [exact I |].
  destruct (String.eqb k' k); [exact I | exact IH].
Qed.
Hint Resolve pythonic_getitem : pythonic.

Lemma pythonic_py_int (v : value) : pythonic (py_int v).
Proof. unfold py_int. pythonic. Qed.
Hint Resolve pythonic_py_int : pythonic.

Lemma pythonic_int_item (a : string) (r : record) : pythonic (int_item a r).
Proof. unfold int_item. pythonic. Qed.
Hint Resolve pythonic_int_item : pythonic.

Lemma pythonic_value_lt (a b : value) : pythonic (value_lt a b).
Proof. unfold value_lt. pythonic. Qed.
Hint Resolve pythonic_value_lt : pythonic.

Lemma pythonic_first {A : Type} (l : list A) : pythonic (first l).
Proof. unfold first. pythonic. Qed.
Hint Resolve pythonic_first : pythonic.

Lemma pythonic_list_remove (x : string) (l : list string) :
  pythonic (list_remove x l).
Proof.
  induction l as [| y l IH]; simpl; [exact I |].
  destruct (String.eqb y x); pythonic.
Qed.
Hint Resolve pythonic_list_remove : pythonic.

Lemma pythonic_get_counts (data : list record) (a : string) (t : option Z) :
  pythonic (get_counts data a t).
Proof. unfold get_counts, get_counts_threshold. pythonic. Qed.
Hint Resolve pythonic_get_counts : pythonic.

Lemma pythonic_get_information_gain
  (data : list record) (a : string) (t : option Z) :
  pythonic (get_information_gain data a t).
Proof. unfold get_information_gain. pythonic. Qed.
Hint Resolve pythonic_get_information_gain : pythonic.

Lemma pythonic_count_below (l : list record) (a : string) (t : value) :
  forall n, pythonic (count_below l a t n).
Proof.
  induction l as [| item l IH]; intros n; simpl; pythonic.
Qed.
Hint Resolve pythonic_count_below : pythonic.

Lemma pythonic_get_information_gain_threshold
  (l : list record) (a : string) (t : value) :
  pythonic (get_information_gain_threshold l a t).
Proof. unfold get_information_gain_threshold. pythonic. Qed.
Hint Resolve pythonic_get_information_gain_threshold : pythonic.

Lemma pythonic_sorted (data : list record) (a : string) :
  pythonic (sorted data a).
Proof. unfold sorted. pythonic. Qed.
Hint Resolve pythonic_sorted : pythonic.

Lemma pythonic_find_threshold (data : list record) (a : string) :
  pythonic (find_threshold data a).
Proof. unfold find_threshold, find_threshold_step. pythonic. Qed.
Hint Resolve pythonic_find_threshold : pythonic.

Lemma pythonic_majority_label (data : list record) :
  pythonic (majority_label data).
Proof. unfold majority_label. pythonic. Qed.
Hint Resolve pythonic_majority_label : pythonic.

Lemma pythonic_split_on_attribute
  (data : list record) (a : string) (t : option Z) :
  pythonic (split_on_attribute data a t).
Proof. unfold split_on_attribute, split_on_attribute_threshold. pythonic. Qed.
Hint Resolve pythonic_split_on_attribute : pythonic.

Lemma pythonic_select_step (data : list record)
  (s : float * option string * option Z) (a : string) :
  pythonic (select_step data s a).
Proof. unfold select_step, attribute_gain. pythonic. Qed.
Hint Resolve pythonic_select_step : pythonic.

Lemma pythonic_build (fuel : nat) :
  forall data cat attributes max_depth depth,
    (List.length attributes < fuel)%nat ->
    pythonic (_build_decision_tree fuel data cat attributes max_depth depth).
Proof.
  induction fuel as [| fuel IH];
    intros data cat attributes max_depth depth Hfuel; [lia |].
  cbn [_build_decision_tree]. pythonic.
  unfold build_child.
  destruct (List.length (fst x) =? 0)%nat; [pythonic |].
  apply pythonic_bind; [auto with pythonic |].
  intros na Hna. apply IH. apply list_remove_length in Hna. lia.
Qed.

(** More fuel than the attributes need changes nothing. *)
Lemma build_fuel (f1 : nat) :
  forall f2 data cat attributes max_depth depth,
    (List.length attributes < f1)%nat -> (List.length attributes < f2)%nat ->
    _build_decision_tree f1 data cat attributes max_depth depth
    = _build_decision_tree f2 data cat attributes max_depth depth.
Proof.
  induction f1 as [| f1 IH];
    intros f2 data cat attributes max_depth depth H1 H2; [lia |].
  destruct f2 as [| f2]; [lia |].
  cbn [_build_decision_tree].
  destruct (mapM (getitem "class") data); simpl; [| reflexivity].
  destruct (majority_label data); simpl; [| reflexivity].
  destruct (_ || _); [reflexivity |].
  destruct (exceeds max_depth (depth + 1)); [reflexivity |].
  destruct (foldM _ _ _) as [s |]; simpl; [| reflexivity].
  destruct (first data); simpl; [| reflexivity].
  destruct (snd (fst s)) as [best |]; [| reflexivity].
  destruct (getitem best a1); simpl; [| reflexivity].
  destruct (if represents_integer a2 then _ else _) as [subsets |]; simpl;
    [| reflexivity].
  erewrite mapM_ext_in; [reflexivity |].
  intros subset _. unfold build_child.
  destruct (List.length (fst subset) =? 0)%nat; [reflexivity |].
  destruct (list_remove best attributes) as [na |] eqn:Hna; simpl;
    [| reflexivity].
  apply list_remove_length in Hna. apply IH; lia.
Qed.

End BuildFacts.

#[global] Hint Resolve pythonic_first pythonic_list_remove : pythonic.

(** ** The depth of the tree *)

Lemma height_0_leaf (n : Node) : height n = O -> children n = [].
Proof. destruct n as [a cs l c t]. simpl. destruct cs; [reflexivity | discriminate]. Qed.

(** C9: a tree built with [max_depth = m], [m] not negative, has no path of
    more than [m] split edges; with [m = 0] it is a single leaf. *)
Theorem build_respects_max_depth {rt : PyRuntime}
  (data : list record) (m : Z) (tree : Node) :
  0 <= m ->
  build_decision_tree data (Some m) = Ok tree ->
  Z.of_nat (height tree) <= m /\ (m = 0 -> children tree = []).
Proof.
  intros Hm H. unfold build_decision_tree in H.
  inv_bind H. inv_bind H. inv_bind H.
  apply build_height_depth in H.
  split; [lia |].
  intros ->. apply height_0_leaf. lia.
Qed.

Lemma build_respects_max_depth_witness :
  Z.of_nat (height colours_depth_1) <= 1
  /\ (1 = 0 -> children colours_depth_1 = []).
Proof.
  apply (build_respects_max_depth (rt := reference_runtime) colours 1
           colours_depth_1).
  - lia.
  - vm_compute. reflexivity.
Defined.

(** C10: the construction terminates, with or without [max_depth]: the
    recursion never lacks fuel once the fuel exceeds the number of
    attributes, more fuel changes nothing, and the tree is no deeper than
    the number of the attributes that are not reserved. *)
Theorem build_terminates {rt : PyRuntime}
  (data : list record) (max_depth : option Z) :
  pythonic (build_decision_tree data max_depth)
  /\ (forall fuel cat attributes depth,
         (List.length attributes < fuel)%nat ->
         pythonic (_build_decision_tree fuel data cat attributes max_depth depth)
         /\ _build_decision_tree fuel data cat attributes max_depth depth
            = _build_decision_tree (S (List.length attributes)) data cat
                attributes max_depth depth)
  /\ (forall d0 tree,
         first data = Ok d0 ->
         build_decision_tree data max_depth = Ok tree ->
         (height tree + 2 <= List.length (keys d0))%nat).
Proof.
  split; [| split].
  - unfold build_decision_tree.
    do 3 (apply pythonic_bind; [auto with pythonic | intros ? _]).
    apply pythonic_build. lia.
  - intros fuel cat attributes depth Hfuel. split.
    + apply pythonic_build, Hfuel.
    + apply build_fuel; lia.
  - intros d0 tree Hd0 H. unfold build_decision_tree in H.
    inv_bind H. inv_bind H. inv_bind H.
    rewrite Hd0 in E. injection E as <-.
    apply build_height_attributes in H.
    apply list_remove_length in E0, E1. unfold keys in *. lia.
Qed.

(** ** Facts on classification *)

Section ClassifyFacts.

Context {rt : PyRuntime}.

(** One step of [decision_tree_classify] at a node with children. *)
Lemma classify_node (item : record) (a : option string) (c0 : Node)
  (others : list Node) (l : Z) (c : option value) (t : option Z) :
  decision_tree_classify item (mkNode a (c0 :: others) l c t)
  = (category <- getitem_opt a item ;;
     if negb (represents_integer category) then
       match matching_child category (c0 :: others) with
       | Some child => decision_tree_classify item child
       | None => decision_tree_classify item c0
       end
     else
       z <- py_int category ;;
       t' <- match t with Some t' => Ok t' | None => Raise TypeError end ;;
       if z <? t' then decision_tree_classify item c0
       else match others with
            | c1 :: _ => decision_tree_classify item c1
            | [] => Raise IndexError
            end).
Proof.
  cbn [decision_tree_classify].
  destruct (getitem_opt a item) as [v | e]; cbn [bind]; [| reflexivity].
  destruct (negb (represents_integer v)); [| reflexivity].
  unfold matching_child, has_category. cbn [find].
  destruct (match category c0 with Some c' => value_eqb c' v | None => false end);
    [reflexivity |].
  induction others as [| child cs IH]; [reflexivity |].
  cbn [find].
  destruct (match category child with Some c' => value_eqb c' v | None => false end);
    auto.
Qed.

Lemma value_eqb_eq (a b : value) : value_eqb a b = true <-> a = b.
Proof.
  destruct a as [x | s], b as [y | t]; simpl; split; intros H;
    try discriminate; try (injection H as ->).
  - apply Z.eqb_eq in H. now subst.
  - apply Z.eqb_refl.
  - apply String.eqb_eq in H. now subst.
  - apply String.eqb_refl.
Qed.

Lemma matching_child_none (v : value) (cs : list Node) :
  (forall child, In child cs -> category child <> Some v) ->
  matching_child v cs = None.
Proof.
  intros H. unfold matching_child.
  destruct (find _ cs) as [child |] eqn:E; [| reflexivity].
  apply find_some in E. destruct E as [Hin Hc].
  destruct (category child) as [c' |] eqn:Ec; [| discriminate].
  apply value_eqb_eq in Hc. subst c'. now apply H in Hin.
Qed.

Lemma matching_child_In (v : value) (cs : list Node) (child : Node) :
  matching_child v cs = Some child -> In child cs.
Proof. intros H. now apply find_some in H. Qed.

Lemma getitem_In (a : string) (r : record) (v : value) :
  getitem a r = Ok v -> In (a, v) r.
Proof.
  induction r as [| [k w] r IH]; simpl; [discriminate |].
  destruct (String.eqb_spec k a) as [-> | _]; intros H.
  - injection H as ->. now left.
  - right. auto.
Qed.

Lemma In_keys_getitem (a : string) (r : record) :
  In a (keys r) -> exists v, getitem a r = Ok v.
Proof.
  induction r as [| [k w] r IH]; simpl; [tauto |].
  intros H. destruct (String.eqb_spec k a) as [-> | Hne]; [eauto |].
  destruct H as [H | H]; [contradiction | auto].
Qed.

Lemma same_types_In (d r : record) (a : string) (v0 : value) :
  same_types d r = true -> In (a, v0) d ->
  exists v, getitem a r = Ok v
            /\ represents_integer v = represents_integer v0.
Proof.
  unfold same_types. rewrite forallb_forall. intros H Hin.
  specialize (H _ Hin). simpl in H.
  destruct (getitem a r) as [v | e]; [| discriminate].
  exists v. split; [reflexivity |]. now apply Bool.eqb_prop.
Qed.

(** *** The attribute the loop selects *)

Lemma attribute_gain_inv (data : list record) (a : string) (g : float)
  (thr : option Z) :
  attribute_gain data a = Ok (g, thr) ->
  exists d0 v, first data = Ok d0 /\ getitem a d0 = Ok v /\
    (if represents_integer v then exists t, thr = Some t else thr = None).
Proof.
  unfold attribute_gain. intros H. inv_bind H. inv_bind H.
  exists x, x0. repeat split; try assumption.
  destruct (represents_integer x0).
  - inv_bind H. inv_bind H. injection H as _ <-. eauto.
  - inv_bind H. now injection H as _ <-.
Qed.

Lemma select_inv (data : list record) (attributes : list string)
  (s : float * option string * option Z) (best : string) :
  foldM (select_step data) attributes ((-1)%float, None, None) = Ok s ->
  snd (fst s) = Some best ->
  In best attributes /\ exists g, attribute_gain data best = Ok (g, snd s).
Proof.
  intros H Hbest.
  pose (I := fun s : float * option string * option Z =>
              snd (fst s) = None \/
              exists a g, In a attributes /\ snd (fst s) = Some a
                          /\ attribute_gain data a = Ok (g, snd s)).
  assert (Hinv : I s).
  { apply (foldM_invariant (select_step data) I attributes) with
      (s := ((-1)%float, None, None)); [| now left | exact H].
    intros s0 a s1 Hin Hs0 Hstep. unfold select_step in Hstep.
    inv_bind Hstep. destruct (fst (fst s0) <? fst x)%float.
    - injection Hstep as <-. right. exists a, (fst x). simpl.
      now destruct x.
    - now injection Hstep as <-. }
  destruct Hinv as [Hnone | (a & g & Hin & Ha & Hg)]; [congruence |].
  assert (a = best) by congruence. subst a. eauto.
Qed.

(** *** The subsets of a split *)

Lemma split_threshold_fold (a : string) (t : Z) (data : list record) :
  forall below above below' above',
    foldM (fun data_categories data_point =>
             let '(below, above) := data_categories in
             z <- int_item a data_point ;;
             if z <? t
             then Ok (below ++ [data_point], above)
             else Ok (below, above ++ [data_point]))
          data (below, above) = Ok (below', above') ->
    below' = below ++ filter (below_threshold a t) data
    /\ above' = above ++ filter (above_threshold a t) data
    /\ Forall (fun r => exists z, int_item a r = Ok z) data.
Proof.
  induction data as [| r data IH]; simpl; intros below above below' above' H.
  - injection H as <- <-. now rewrite !app_nil_r.
  - inv_bind H. inv_bind E. unfold below_threshold, above_threshold.
    rewrite E0. destruct (x0 <? t); injection E as <-; apply IH in H;
      destruct H as (-> & -> & Hall); simpl; rewrite <- !app_assoc;
      repeat split; eauto.
Qed.

Lemma split_threshold_spec (data : list record) (a : string) (t : Z)
  (subsets : list (list record * value)) :
  split_on_attribute_threshold data a t = Ok subsets ->
  subsets = [(filter (below_threshold a t) data, VStr "below");
             (filter (above_threshold a t) data, VStr "above")]
  /\ Forall (fun r => exists z, int_item a r = Ok z) data.
Proof.
  unfold split_on_attribute_threshold. intros H. inv_bind H.
  destruct x as [below above]. apply split_threshold_fold in E.
  destruct E as (-> & -> & Hall). now injection H as <-.
Qed.

Lemma group_add_In (k : value) (x : record) (g : list (value * list record))
  (k' : value) (xs' : list record) (r : record) :
  In (k', xs') (group_add k x g) -> In r xs' ->
  r = x \/ exists xs, In (k', xs) g /\ In r xs.
Proof.
  induction g as [| [k0 xs0] g IH]; simpl; intros Hin Hr.
  - destruct Hin as [Hin | []]. injection Hin as <- <-.
    destruct Hr as [<- | []]. now left.
  - destruct (value_eqb k0 k).
    + destruct Hin as [Hin | Hin].
      * injection Hin as <- <-. apply in_app_or in Hr.
        destruct Hr as [Hr | [<- | []]]; [right | now left].
        exists xs0. auto.
      * right. exists xs'. auto.
    + destruct Hin as [Hin | Hin].
      * injection Hin as <- <-. right. exists xs0. auto.
      * destruct (IH Hin Hr) as [-> | (xs & Hxs & Hrx)]; [now left |].
        right. exists xs. auto.
Qed.

Lemma split_incl (data : list record) (a : string) (thr : option Z)
  (subsets : list (list record * value)) (subset : list record * value) :
  split_on_attribute data a thr = Ok subsets ->
  In subset subsets -> incl (fst subset) data.
Proof.
  destruct thr as [t |]; simpl; intros H Hin.
  - apply split_threshold_spec in H. destruct H as [-> _].
    destruct Hin as [<- | [<- | []]]; simpl; intros r Hr;
      apply filter_In in Hr; tauto.
  - inv_bind H. injection H as <-.
    apply in_map_iff in Hin. destruct Hin as ([k xs] & <- & Hin). simpl.
    pose (I := fun g : list (value * list record) =>
                forall k xs r, In (k, xs) g -> In r xs -> In r data).
    assert (Hinv : I x).
    { apply (foldM_invariant _ I data) with (s := []) (3 := E);
        [| intros ? ? ? []].
      intros g r' g' Hr' Hg Hstep k' xs' r Hk Hr.
      inv_bind Hstep. injection Hstep as <-.
      destruct (group_add_In _ _ _ _ _ _ Hk Hr) as [-> | (xs0 & H0 & H1)];
        eauto. }
    intros r Hr. eauto.
Qed.

(** *** The nodes of a built tree *)

Lemma nodes_node (P : Node -> Prop) (a : option string) (cs : list Node)
  (l : Z) (c : option value) (t : option Z) :
  Forall P (nodes (mkNode a cs l c t)) <->
  P (mkNode a cs l c t) /\ Forall (fun child => Forall P (nodes child)) cs.
Proof.
  cbn [nodes]. rewrite Forall_cons_iff.
  assert (H : Forall P (flat_map nodes cs)
              <-> Forall (fun child => Forall P (nodes child)) cs).
  { induction cs as [| x cs IH]; simpl.
    - split; constructor.
    - rewrite Forall_app, Forall_cons_iff, IH. tauto. }
  tauto.
Qed.

Lemma nodes_sub (t : Node) :
  forall n, In n (nodes t) -> incl (nodes n) (nodes t).
Proof.
  induction t as [a cs l c th IH] using Node_induction.
  intros n Hn. cbn [nodes] in Hn. destruct Hn as [<- | Hn];
    [apply incl_refl |].
  apply in_flat_map in Hn. destruct Hn as (child & Hchild & Hn).
  rewrite Forall_forall in IH.
  intros m Hm. cbn [nodes]. right. apply in_flat_map.
  exists child. split; [assumption |]. now apply (IH child Hchild n).
Qed.

Lemma represents_integer_py_int (v : value) :
  represents_integer v = true -> exists z, py_int v = Ok z.
Proof.
  unfold represents_integer. destruct (py_int v); [eauto | discriminate].
Qed.

Lemma classify_ok (d0 item : record) :
  same_types (filter (fun kv => negb (reserved (fst kv))) d0) item = true ->
  forall n, Forall (node_ok d0) (nodes n) ->
            exists l, decision_tree_classify item n = Ok l /\ (l = 0 \/ l = 1).
Proof.
  intros Hitem n. induction n as [a cs l c t IH] using Node_induction.
  intros Hall. apply nodes_node in Hall. destruct Hall as [[Hl Hn] Hcs].
  cbn [label children attribute threshold] in *.
  destruct cs as [| c0 others]; [exists l; split; [reflexivity | assumption] |].
  destruct Hn as (a' & v0 & -> & Hres & Hv0 & Hint); [discriminate |].
  assert (Hchild : forall child, In child (c0 :: others) ->
            exists l', decision_tree_classify item child = Ok l'
                       /\ (l' = 0 \/ l' = 1)).
  { intros child Hin. rewrite Forall_forall in IH, Hcs. auto. }
  apply getitem_In in Hv0.
  assert (Hin : In (a', v0) (filter (fun kv => negb (reserved (fst kv))) d0)).
  { apply filter_In. split; [assumption |]. simpl. now rewrite Hres. }
  destruct (same_types_In _ _ _ _ Hitem Hin) as (v & Hv & Hkind).
  rewrite classify_node. cbn [getitem_opt]. rewrite Hv. cbn [bind].
  destruct (represents_integer v) eqn:Ev; cbn [negb].
  - symmetry in Hkind. destruct (Hint Hkind) as [[t' ->] (c0' & c1 & Hcs')].
    injection Hcs' as -> ->.
    destruct (represents_integer_py_int v Ev) as [z ->]. cbn [bind].
    destruct (z <? t'); apply Hchild; simpl; auto.
  - destruct (matching_child v (c0 :: others)) as [child |] eqn:Em.
    + apply Hchild. eapply matching_child_In, Em.
    + apply Hchild. now left.
Qed.

Lemma first_In {A : Type} (l : list A) (x : A) : first l = Ok x -> In x l.
Proof. destruct l; simpl; intros H; [discriminate | injection H as ->; now left]. Qed.

Lemma build_ok (d0 : record) (fuel : nat) :
  forall data cat attributes max_depth depth n,
    Forall (fun r => same_types d0 r = true) data ->
    (forall a, In a attributes -> In a (keys d0) /\ reserved a = false) ->
    _build_decision_tree fuel data cat attributes max_depth depth = Ok n ->
    Forall (node_ok d0) (nodes n).
Proof.
  induction fuel as [| fuel IH];
    intros data cat attributes max_depth depth n Hdata Hattrs H;
    [discriminate |].
  apply build_inv in H.
  destruct H as (l & Hl & [-> | (s & best & d1 & v & subsets & cs & _ & _ & Hs
                                 & Hbest & Hd1 & Hv & Hsplit & Hcs & ->)]).
  - constructor; [| constructor]. split; simpl.
    + eapply majority_label_binary, Hl.
    + congruence.
  - destruct (select_inv _ _ _ _ Hs Hbest) as [Hin (g & Hg)].
    destruct (Hattrs _ Hin) as [Hkey Hres].
    destruct (In_keys_getitem _ _ Hkey) as [v0 Hv0].
    apply attribute_gain_inv in Hg.
    destruct Hg as (d1' & v' & Hd1' & Hv' & Hthr).
    assert (d1' = d1) by congruence. subst d1'.
    assert (v' = v) by congruence. subst v'.
    assert (Hd1in : In d1 data) by (apply first_In, Hd1).
    rewrite Forall_forall in Hdata.
    destruct (same_types_In _ _ _ _ (Hdata _ Hd1in) (getitem_In _ _ _ Hv0))
      as (v1 & Hv1 & Hkind).
    assert (v1 = v) by congruence. subst v1.
    apply nodes_node. split.
    + split; cbn [label children attribute threshold].
      * eapply majority_label_binary, Hl.
      * intros _. exists best, v0. repeat split; try assumption.
        -- rewrite <- Hkind in H. rewrite H in Hthr. exact Hthr.
        -- rewrite <- Hkind in H. rewrite H in Hthr, Hsplit.
           destruct Hthr as [t Ht]. rewrite Ht in Hsplit. simpl in Hsplit.
           apply split_threshold_spec in Hsplit. destruct Hsplit as [-> _].
           apply mapM_length in Hcs.
           destruct cs as [| c0 [| c1 [| c2 cs]]]; try discriminate. eauto.
    + eapply mapM_Forall; [exact Hcs |].
      intros subset child Hsub Hchild. unfold build_child in Hchild.
      destruct (List.length (fst subset) =? 0)%nat.
      * inv_bind Hchild. injection Hchild as <-.
        constructor; [| constructor]. split; simpl.
        -- eapply majority_label_binary; eassumption.
        -- congruence.
      * inv_bind Hchild. eapply IH; [| | exact Hchild].
        -- apply Forall_forall. intros r Hr. apply Hdata.
           assert (Hincl : incl (fst subset) data).
           { destruct (represents_integer v);
               eapply split_incl; eassumption. }
           apply Hincl, Hr.
        -- intros a Ha. apply Hattrs.
           eapply list_remove_incl; eassumption.
Qed.

Lemma distinct_cons (x : string) (l : list string) :
  distinct (x :: l) = true -> ~ In x l /\ distinct l = true.
Proof.
  simpl. intros H. apply andb_prop in H. destruct H as [Hx Hl].
  split; [| assumption]. intros Hin.
  apply negb_true_iff in Hx.
  assert (existsb (String.eqb x) l = true); [| congruence].
  apply existsb_exists. exists x. split; [assumption | apply String.eqb_refl].
Qed.

Lemma list_remove_distinct (x : string) (l l' : list string) :
  distinct l = true -> list_remove x l = Ok l' ->
  distinct l' = true /\ forall y, In y l' -> In y l /\ y <> x.
Proof.
  revert l'. induction l as [| z l IH]; intros l' Hd H; [discriminate |].
  apply distinct_cons in Hd. destruct Hd as [Hz Hd].
  simpl in H. destruct (String.eqb_spec z x) as [-> | Hne].
  - injection H as <-. split; [assumption |].
    intros y Hy. split; [now right | congruence].
  - inv_bind H. injection H as <-.
    destruct (IH _ Hd E) as [Hd' Hin]. split.
    + simpl. apply andb_true_intro. split; [| assumption].
      apply negb_true_iff.
      destruct (existsb (String.eqb z) x0) eqn:Ex; [| reflexivity].
      apply existsb_exists in Ex. destruct Ex as (w & Hw & Hzw).
      apply String.eqb_eq in Hzw. subst w.
      destruct (Hin _ Hw) as [Hzl _]. contradiction.
    + intros y [<- | Hy]; [split; [now left | assumption] |].
      destruct (Hin _ Hy). split; [now right | assumption].
Qed.

Lemma build_category (fuel : nat) (data : list record) (cat : option value)
  (attributes : list string) (max_depth : option Z) (depth : Z) (n : Node) :
  _build_decision_tree fuel data cat attributes max_depth depth = Ok n ->
  category n = cat.
Proof.
  destruct fuel as [| fuel]; intros H; [discriminate |].
  apply build_inv in H.
  destruct H as (l & _ & [-> | (s & best & d1 & v & subsets & cs & _ & _ & _
                                 & _ & _ & _ & _ & _ & ->)]); reflexivity.
Qed.

Lemma build_child_category (fuel : nat) (data : list record)
  (attributes : list string) (max_depth : option Z) (depth : Z)
  (best : string) (subset : list record * value) (child : Node) :
  build_child (fun s c na => _build_decision_tree fuel s c na max_depth depth)
              data attributes best subset = Ok child ->
  category child = Some (snd subset).
Proof.
  unfold build_child. destruct (List.length (fst subset) =? 0)%nat; intros H.
  - inv_bind H. now injection H as <-.
  - inv_bind H. eapply build_category, H.
Qed.

(** A call that returns a node with a threshold has split the data in two
    at that threshold and built the two children from the two parts. *)
Lemma build_threshold_inv (fuel : nat) (data : list record)
  (cat : option value) (attributes : list string) (max_depth : option Z)
  (depth : Z) (n : Node) (t : Z) :
  _build_decision_tree (S fuel) data cat attributes max_depth depth = Ok n ->
  threshold n = Some t ->
  exists a below above,
    attribute n = Some a /\ children n = [below; above] /\
    Forall (fun r => exists z, int_item a r = Ok z) data /\
    build_child
      (fun s c na => _build_decision_tree fuel s c na max_depth (depth + 1))
      data attributes a (filter (below_threshold a t) data, VStr "below")
    = Ok below /\
    build_child
      (fun s c na => _build_decision_tree fuel s c na max_depth (depth + 1))
      data attributes a (filter (above_threshold a t) data, VStr "above")
    = Ok above.
Proof.
  intros H Ht. apply build_inv in H.
  destruct H as (l & _ & [-> | (s & best & d1 & v & subsets & cs & _ & _ & Hs
                                 & Hbest & Hd1 & Hv & Hsplit & Hcs & ->)]);
    [discriminate |].
  cbn [threshold attribute children] in *.
  destruct (select_inv _ _ _ _ Hs Hbest) as [_ (g & Hg)].
  apply attribute_gain_inv in Hg.
  destruct Hg as (d1' & v' & Hd1' & Hv' & Hthr).
  assert (d1' = d1) by congruence. subst d1'.
  assert (v' = v) by congruence. subst v'.
  destruct (represents_integer v); [| congruence].
  rewrite Ht in Hsplit. simpl in Hsplit.
  apply split_threshold_spec in Hsplit. destruct Hsplit as [-> Hall].
  cbn [mapM] in Hcs. inv_bind Hcs. inv_bind Hcs. inv_bind E0. inv_bind E0.
  injection E2 as <-. injection E0 as <-. injection Hcs as <-.
  exists best, x, x1. repeat split; first [assumption | reflexivity].
Qed.

(** A node that is split has a threshold exactly when the value of its
    attribute in the first record is an integer. *)
Lemma build_split_kind (fuel : nat) (data : list record)
  (cat : option value) (attributes : list string) (max_depth : option Z)
  (depth : Z) (n : Node) :
  _build_decision_tree (S fuel) data cat attributes max_depth depth = Ok n ->
  children n <> [] ->
  exists a d0 v,
    attribute n = Some a /\ first data = Ok d0 /\ getitem a d0 = Ok v /\
    (represents_integer v = true <-> exists t, threshold n = Some t).
Proof.
  intros H Hcs. apply build_inv in H.
  destruct H as (l & _ & [-> | (s & best & d1 & v & subsets & cs & _ & _ & Hs
                                 & Hbest & Hd1 & Hv & _ & _ & ->)]);
    [now elim Hcs |].
  cbn [threshold attribute children] in *.
  destruct (select_inv _ _ _ _ Hs Hbest) as [_ (g & Hg)].
  apply attribute_gain_inv in Hg.
  destruct Hg as (d1' & v' & Hd1' & Hv' & Hthr).
  assert (d1' = d1) by congruence. subst d1'.
  assert (v' = v) by congruence. subst v'.
  exists best, d1, v. repeat split; try assumption.
  - intros Hint. now rewrite Hint in Hthr.
  - intros [t Ht]. destruct (represents_integer v); congruence.
Qed.

Lemma build_threshold_split (fuel : nat) :
  forall data cat attributes max_depth depth n,
    _build_decision_tree fuel data cat attributes max_depth depth = Ok n ->
    Forall threshold_split (nodes n).
Proof.
  induction fuel as [| fuel IH];
    intros data cat attributes max_depth depth n H; [discriminate |].
  assert (Hroot : threshold_split n).
  { intros t Ht.
    destruct (build_threshold_inv _ _ _ _ _ _ _ _ H Ht)
      as (a & below & above & Ha & Hcs & _ & Hb & Ha').
    exists a, below, above. repeat split; try assumption.
    - apply build_child_category in Hb. exact Hb.
    - apply build_child_category in Ha'. exact Ha'. }
  apply build_inv in H.
  destruct H as (l & _ & [-> | (s & best & d1 & v & subsets & cs & _ & _ & _
                                 & _ & _ & _ & _ & Hcs & ->)]).
  - constructor; [assumption | constructor].
  - apply nodes_node. split; [assumption |].
    eapply mapM_Forall; [exact Hcs |].
    intros subset child _ Hchild. unfold build_child in Hchild.
    destruct (List.length (fst subset) =? 0)%nat.
    + inv_bind Hchild. injection Hchild as <-.
      constructor; [| constructor]. intros t Ht. discriminate.
    + inv_bind Hchild. eapply IH, Hchild.
Qed.

(** At a node with a threshold and two children, a record with an
    integer goes below or above. *)
Lemma classify_threshold (item : record) (n : Node) (a : string)
  (below above : Node) (t z : Z) :
  attribute n = Some a -> children n = [below; above] ->
  threshold n = Some t -> int_item a item = Ok z ->
  decision_tree_classify item n
  = decision_tree_classify item (if z <? t then below else above).
Proof.
  destruct n as [a' cs l c t']. cbn [attribute children threshold].
  intros -> -> -> Hz. unfold int_item in Hz. inv_bind Hz.
  rewrite classify_node. cbn [getitem_opt]. rewrite E. cbn [bind].
  unfold represents_integer. rewrite Hz. cbn [negb bind].
  now destruct (z <? t).
Qed.

End ClassifyFacts.

(** ** Classification at a node *)

(** C8, as the code has it: at a node with children, a record whose value of
    the node's attribute is no integer and is the category of no child is
    classified by the first child. *)
Theorem classify_unseen_category {rt : PyRuntime}
  (item : record) (node : Node) (a : string) (v : value)
  (c0 : Node) (others : list Node) :
  children node = c0 :: others ->
  attribute node = Some a ->
  getitem a item = Ok v ->
  represents_integer v = false ->
  (forall child, In child (children node) -> category child <> Some v) ->
  decision_tree_classify item node = decision_tree_classify item c0.
Proof.
  destruct node as [a' cs l c t]. cbn [children attribute].
  intros -> -> Hv Hint Hnone.
  rewrite classify_node. cbn [getitem_opt]. rewrite Hv. cbn [bind].
  rewrite Hint. cbn [negb].
  now rewrite (matching_child_none v (c0 :: others) Hnone).
Qed.

Lemma classify_unseen_category_witness :
  decision_tree_classify (rt := reference_runtime) green_item colour_node
  = Ok 1.
Proof.
  rewrite (classify_unseen_category (rt := reference_runtime) green_item
             colour_node "colour" (VStr "green")
             (mkNode None [] 1 (Some (VStr "red")) None)
             [mkNode None [] 0 (Some (VStr "blue")) None]).
  - reflexivity.
  - reflexivity.
  - reflexivity.
  - reflexivity.
  - reflexivity.
  - simpl. intros child [<- | [<- | []]]; simpl; discriminate.
Defined.

(** C8 as it is stated fails: a record whose value of a categorical
    attribute is an integer is compared with the threshold of the node,
    which is [None]. *)
Lemma classify_unseen_integer_fails :
  ~ (forall (rt : PyRuntime) (item : record) (node : Node) (a : string)
            (v : value) (c0 : Node) (others : list Node),
        children node = c0 :: others ->
        attribute node = Some a ->
        threshold node = None ->
        getitem a item = Ok v ->
        (forall child, In child (children node) -> category child <> Some v) ->
        decision_tree_classify item node = decision_tree_classify item c0).
Proof.
  intros H.
  specialize (H reference_runtime numbered_item colour_node "colour" (VInt 5)
                (mkNode None [] 1 (Some (VStr "red")) None)
                [mkNode None [] 0 (Some (VStr "blue")) None]
                eq_refl eq_refl eq_refl eq_refl).
  assert (Hneq : decision_tree_classify (rt := reference_runtime)
                   numbered_item colour_node = Raise TypeError)
    by reflexivity.
  rewrite H in Hneq; [discriminate |].
  simpl. intros child [<- | [<- | []]]; simpl; discriminate.
Qed.

(** C2: on a tree built from a well-formed dataset, the classification of
    a well-formed record returns, and returns 0 or 1, from the root and
    from every other node of the tree. *)
Theorem classify_total {rt : PyRuntime}
  (data : list record) (max_depth : option Z) (tree : Node) (item : record) :
  well_formed_dataset data = true ->
  build_decision_tree data max_depth = Ok tree ->
  well_formed_record data item = true ->
  forall n, In n (nodes tree) ->
            exists l, decision_tree_classify item n = Ok l /\ (l = 0 \/ l = 1).
Proof.
  destruct data as [| d0 rest]; [discriminate |].
  unfold well_formed_dataset, well_formed_record, build_decision_tree.
  intros Hwf H Hitem n Hn. apply andb_prop in Hwf.
  destruct Hwf as [Hkeys Hdata].
  cbn [first bind] in H. inv_bind H. inv_bind H.
  destruct (list_remove_distinct _ _ _ Hkeys E) as [Hkeys' Hx].
  destruct (list_remove_distinct _ _ _ Hkeys' E0) as [_ Hx0].
  apply (classify_ok d0 item Hitem).
  assert (Hall : Forall (node_ok d0) (nodes tree)).
  { eapply build_ok; [| | exact H].
    - apply Forall_forall. intros r Hr.
      rewrite forallb_forall in Hdata. auto.
    - intros a Ha. destruct (Hx0 _ Ha) as [Ha' Hclass].
      destruct (Hx _ Ha') as [Hkey Hfnlwgt]. split; [assumption |].
      unfold reserved. apply orb_false_iff.
      split; apply String.eqb_neq; assumption. }
  rewrite Forall_forall in *. intros m Hm.
  apply Hall. eapply nodes_sub; eassumption.
Qed.

Lemma classify_total_witness :
  exists l, decision_tree_classify (rt := reference_runtime) green_item
              colours_tree = Ok l /\ (l = 0 \/ l = 1).
Proof.
  apply (classify_total (rt := reference_runtime) colours None colours_tree
           green_item).
  - vm_compute. reflexivity.
  - vm_compute. reflexivity.
  - vm_compute. reflexivity.
  - simpl. auto.
Defined.

(** ** The split at a threshold *)

(** The two filters at a threshold share out the records that have an
    integer. *)
Lemma threshold_filters_partition {rt : PyRuntime} (a : string) (t : Z)
  (data : list record) :
  Forall (fun r => exists z, int_item a r = Ok z) data ->
  Permutation (filter (below_threshold a t) data
               ++ filter (above_threshold a t) data) data.
Proof.
  induction 1 as [| r data [z Hz] _ IH]; simpl; [constructor |].
  unfold below_threshold at 1, above_threshold at 1. rewrite Hz.
  destruct (z <? t); simpl.
  - now constructor.
  - apply Permutation_sym, Permutation_cons_app, Permutation_sym, IH.
Qed.

(** C7: a call of the construction that splits its node gives it a
    threshold exactly when the attribute is an integer one.  The call has
    then split its data, in order, into the records whose integer is below
    the threshold and the records whose integer is at or above it, and the
    node has exactly the children [below; above]: each is the leaf with the
    majority label of [data] when its part is empty, and otherwise the tree
    that the recursive call builds from its part and the remaining
    attributes.  Every node with a threshold in the tree has these two
    children; classification of a record with the integer [z] at such a
    node is the classification at the first child when [z] is below the
    threshold and at the second child otherwise, and at a node without
    children it is the label of the node, so that the value returned at a
    node with a threshold is the one found by the descent into that
    child. *)
Theorem continuous_split {rt : PyRuntime}
  (fuel : nat) (data : list record) (cat : option value)
  (attributes : list string) (max_depth : option Z) (depth : Z) (root : Node) :
  _build_decision_tree fuel data cat attributes max_depth depth = Ok root ->
  (children root <> [] ->
   exists a d0 v,
     attribute root = Some a /\ first data = Ok d0 /\ getitem a d0 = Ok v /\
     (represents_integer v = true <-> exists t, threshold root = Some t))
  /\ (forall t, threshold root = Some t ->
        exists a below above lo hi,
          attribute root = Some a /\ children root = [below; above] /\
          (forall r, In r data -> exists z, int_item a r = Ok z) /\
          lo = filter (below_threshold a t) data /\
          hi = filter (above_threshold a t) data /\
          Forall (fun r => exists z, int_item a r = Ok z /\ z < t) lo /\
          Forall (fun r => exists z, int_item a r = Ok z /\ t <= z) hi /\
          Permutation (lo ++ hi) data /\
          (lo = [] ->
           exists l, majority_label data = Ok l
                     /\ below = new_node (Some (VStr "below")) l) /\
          (lo <> [] ->
           exists new_attributes,
             list_remove a attributes = Ok new_attributes
             /\ _build_decision_tree (Nat.pred fuel) lo (Some (VStr "below"))
                  new_attributes max_depth (depth + 1) = Ok below) /\
          (hi = [] ->
           exists l, majority_label data = Ok l
                     /\ above = new_node (Some (VStr "above")) l) /\
          (hi <> [] ->
           exists new_attributes,
             list_remove a attributes = Ok new_attributes
             /\ _build_decision_tree (Nat.pred fuel) hi (Some (VStr "above"))
                  new_attributes max_depth (depth + 1) = Ok above))
  /\ (forall n t, In n (nodes root) -> threshold n = Some t ->
        exists a below above,
          attribute n = Some a /\ children n = [below; above] /\
          category below = Some (VStr "below") /\
          category above = Some (VStr "above") /\
          forall item z,
            int_item a item = Ok z ->
            decision_tree_classify item n
            = decision_tree_classify item (if z <? t then below else above))
  /\ (forall n item, In n (nodes root) -> children n = [] ->
        decision_tree_classify item n = Ok (label n)).
Proof.
  intros H. split; [| split; [| split]].
  - destruct fuel as [| fuel]; [discriminate |].
    apply (build_split_kind _ _ _ _ _ _ _ H).
  - intros t Ht. destruct fuel as [| fuel]; [discriminate |].
    destruct (build_threshold_inv _ _ _ _ _ _ _ _ H Ht)
      as (a & below & above & Ha & Hcs & Hall & Hb & Ha').
    exists a, below, above, (filter (below_threshold a t) data),
      (filter (above_threshold a t) data).
    unfold build_child in Hb, Ha'. cbn [fst snd Nat.pred] in *.
    split; [exact Ha |]. split; [exact Hcs |].
    split; [rewrite Forall_forall in Hall; exact Hall |].
    split; [reflexivity |]. split; [reflexivity |].
    split; [| split; [| split]].
    + apply Forall_forall. intros r Hr. apply filter_In in Hr.
      destruct Hr as [_ Hr]. unfold below_threshold in Hr.
      destruct (int_item a r) as [z | e]; [| discriminate].
      exists z. split; [reflexivity |]. now apply Z.ltb_lt.
    + apply Forall_forall. intros r Hr. apply filter_In in Hr.
      destruct Hr as [_ Hr]. unfold above_threshold in Hr.
      destruct (int_item a r) as [z | e]; [| discriminate].
      exists z. split; [reflexivity |].
      apply Z.ltb_ge. now destruct (z <? t).
    + apply threshold_filters_partition. exact Hall.
    + destruct (filter (below_threshold a t) data) as [| r0 lo];
        destruct (filter (above_threshold a t) data) as [| r1 hi];
        cbn [List.length Nat.eqb] in Hb, Ha'; inv_bind Hb; inv_bind Ha';
        repeat split; intros; try congruence; eauto;
        match goal with
        | Hn : new_node _ _ = _ |- _ =>
            eexists; split; [eassumption | congruence]
        | Hn : Ok (new_node _ _) = _ |- _ =>
            eexists; split; [eassumption | congruence]
        | _ => idtac
        end.
  - intros n t Hn Ht. apply build_threshold_split in H.
    rewrite Forall_forall in H.
    destruct (H n Hn t Ht) as (a & below & above & Ha & Hcs & Hb & Ha').
    exists a, below, above. repeat split; try assumption.
    intros item z Hz. eapply classify_threshold; eassumption.
  - intros n item _ Hn. destruct n as [a cs l c t].
    cbn [children] in Hn. subst cs. reflexivity.
Qed.

Lemma continuous_split_witness :
  exists below above,
    build_decision_tree (rt := reference_runtime) crossed None
    = Ok crossed_tree /\
    children crossed_tree = [below; above] /\
    decision_tree_classify (rt := reference_runtime) young_red crossed_tree
    = decision_tree_classify (rt := reference_runtime) young_red below /\
    decision_tree_classify (rt := reference_runtime) young_red below = Ok 0 /\
    decision_tree_classify (rt := reference_runtime) young_red above = Ok 1 /\
    decision_tree_classify (rt := reference_runtime) old_red crossed_tree
    = decision_tree_classify (rt := reference_runtime) old_red above /\
    decision_tree_classify (rt := reference_runtime) old_red above = Ok 1 /\
    decision_tree_classify (rt := reference_runtime) old_red below = Ok 0.
Proof.
  assert (Hbuild : _build_decision_tree (rt := reference_runtime) 3 crossed
                     None ["age"; "colour"] None 0 = Ok crossed_tree)
    by (vm_compute; reflexivity).
  destruct (continuous_split (rt := reference_runtime) _ _ _ _ _ _ _ Hbuild)
    as (_ & _ & Hroute & _).
  destruct (Hroute crossed_tree 40 (or_introl eq_refl) eq_refl)
    as (a & below & above & Ha & Hcs & _ & _ & Hitem).
  injection Ha as <-. injection Hcs as <- <-.
  do 2 eexists. split; [vm_compute; reflexivity |].
  split; [reflexivity |].
  split; [exact (Hitem young_red 20 eq_refl) |].
  split; [vm_compute; reflexivity |].
  split; [vm_compute; reflexivity |].
  split; [exact (Hitem old_red 40 eq_refl) |].
  split; vm_compute; reflexivity.
Defined.

(** ** The code on the inputs where it leaves the specification *)

(** C1: on two records of the same class the construction does not stop at
    the root: [len(data_classes) == len(set(data_classes))] is false there
    (it holds when the classes are pairwise distinct), and the root is
    split on [age]. *)
Theorem build_one_class_splits {rt : PyRuntime} :
  build_decision_tree one_class None = Ok one_class_tree
  /\ children one_class_tree <> [].
Proof.
  split; [vm_compute; reflexivity | discriminate].
Qed.

(** C5: [class] is a candidate of the baseline; where it is the first key
    and no attribute does better than the majority class, it is the
    attribute returned. *)
Theorem baseline_returns_class {rt : PyRuntime} :
  find_baseline_attribute labelled_first
  = Ok ("class", [(VStr "below", 1); (VStr "above", 1)]).
Proof. vm_compute. reflexivity. Qed.

(** C6: on the ages 20, 25, 30, 35 with the classes 0, 0, 1, 1 the
    threshold found is 0 although the gain of the threshold 30 is 1: a
    candidate that leaves one side with a single class scores 0, and the
    score of another candidate is the conditional entropy of the split, not
    the gain.  On [balances] the threshold found is the candidate 0, whose
    score is 1. *)
Theorem find_threshold_ages {rt : PyRuntime} :
  log2 0.5 = (-1)%float ->
  (find_threshold ages "age" = Ok 0
   /\ get_information_gain ages "age" (Some 30) = Ok 1%float)
  /\ (find_threshold balances "balance" = Ok 0
      /\ get_information_gain_threshold balances "balance" (VInt 0)
         = Ok 1%float).
Proof.
  intros Hlog. vm_compute in Hlog.
  repeat split; vm_compute; rewrite ?Hlog; vm_compute; reflexivity.
Qed.

Lemma find_threshold_ages_witness :
  (find_threshold (rt := reference_runtime) ages "age" = Ok 0
   /\ get_information_gain (rt := reference_runtime) ages "age" (Some 30)
      = Ok 1%float)
  /\ (find_threshold (rt := reference_runtime) balances "balance" = Ok 0
      /\ get_information_gain_threshold (rt := reference_runtime) balances
           "balance" (VInt 0) = Ok 1%float).
Proof.
  apply (find_threshold_ages (rt := reference_runtime)).
  vm_compute. reflexivity.
Defined.

(** C4: [age] is chosen with its own threshold 40, and the labels returned
    are those of [age] at 30, the threshold of [hours], the last key; no
    threshold is returned. *)
Theorem baseline_labels_of_last_key {rt : PyRuntime} :
  log2 0.5 = (-1)%float ->
  find_threshold workers "age" = Ok 40
  /\ find_threshold workers "hours" = Ok 30
  /\ find_baseline_attribute workers
     = Ok ("age", [(VStr "below", 0); (VStr "above", 1)])
  /\ (counts <- get_counts workers "age" (Some 40) ;;
      Ok (map (fun kc => (fst kc, majority_of (snd kc))) counts))
     = Ok [(VStr "below", 1); (VStr "above", 1)].
Proof.
  intros Hlog. vm_compute in Hlog.
  repeat split; vm_compute; rewrite ?Hlog; vm_compute; reflexivity.
Qed.

Lemma baseline_labels_of_last_key_witness :
  find_threshold (rt := reference_runtime) workers "age" = Ok 40
  /\ find_threshold (rt := reference_runtime) workers "hours" = Ok 30
  /\ find_baseline_attribute (rt := reference_runtime) workers
     = Ok ("age", [(VStr "below", 0); (VStr "above", 1)])
  /\ (counts <- get_counts (rt := reference_runtime) workers "age" (Some 40) ;;
      Ok (map (fun kc => (fst kc, majority_of (snd kc))) counts))
     = Ok [(VStr "below", 1); (VStr "above", 1)].
Proof.
  apply (baseline_labels_of_last_key (rt := reference_runtime)).
  vm_compute. reflexivity.
Defined.

(** ** The threshold search *)

Section ThresholdFacts.

Context {rt : PyRuntime}.

Lemma insert_by_key_In (kx ky : value * record) (l : list (value * record)) :
  In ky (insert_by_key kx l) -> ky = kx \/ In ky l.
Proof.
  induction l as [| kz l IH]; simpl.
  - intros [<- | []]. now left.
  - destruct (value_ltb (fst kz) (fst kx)); simpl.
    + intros [<- | H]; [right; now left |].
      destruct (IH H) as [-> | H']; auto.
    + intros [<- | [<- | H]]; auto.
Qed.

Lemma sorted_In (data sorted_data : list record) (a : string) (r : record) :
  sorted data a = Ok sorted_data -> In r sorted_data -> In r data.
Proof.
  unfold sorted. intros H Hr. inv_bind H.
  destruct (homogeneous x); [| discriminate]. injection H as <-.
  apply in_map_iff in Hr. destruct Hr as ([k r'] & <- & Hr). simpl.
  assert (Hin : forall l kx, In kx (fold_right insert_by_key [] l) -> In kx l).
  { induction l as [| ky l IH]; simpl; intros kx Hkx; [assumption |].
    destruct (insert_by_key_In _ _ _ Hkx) as [-> | H']; auto. }
  apply Hin in Hr. eapply in_combine_r, Hr.
Qed.

(** X9: the threshold found is 0 or the integer of the value of a record
    of the data. *)
Lemma find_threshold_range (data : list record) (a : string) (z : Z) :
  find_threshold data a = Ok z ->
  z = 0 \/ exists r, In r data /\ int_item a r = Ok z.
Proof.
  unfold find_threshold. intros H. inv_bind H. inv_bind H.
  pose (I := fun s : search =>
              best_threshold s = VInt 0 \/
              exists r, In r x /\ getitem a r = Ok (best_threshold s)).
  assert (Hinv : I x0).
  { apply (foldM_invariant _ I x) with (3 := E0); [| now left].
    intros s item s' Hitem Hs Hstep. unfold find_threshold_step in Hstep.
    inv_bind Hstep. inv_bind Hstep.
    destruct (negb (value_in x1 (tested s)) && _).
    - inv_bind Hstep. destruct (max_info_gain s <? x3)%float;
        injection Hstep as <-; [right; exists item; auto | exact Hs].
    - injection Hstep as <-. exact Hs. }
  destruct Hinv as [Hzero | (r & Hr & Hbest)].
  - rewrite Hzero in H. injection H as <-. now left.
  - right. exists r. split; [eapply sorted_In; eassumption |].
    unfold int_item. now rewrite Hbest.
Qed.

End ThresholdFacts.

(** ** Rounding

    Over the reals the gain is a mutual information and is not negative.
    The code computes it in floats: on [nine_pairs] the entropy is [1] and
    the sum of the nine weights [2 / 18] rounds to the float above [1]. *)
Lemma gain_rounds_below_zero {rt : PyRuntime} :
  log2 0.5 = (-1)%float ->
  exists g, get_information_gain nine_pairs "kind" None = Ok g
            /\ (g <? 0)%float = true.
Proof.
  intros Hlog. vm_compute in Hlog. eexists. split.
  - vm_compute. rewrite !Hlog. vm_compute. reflexivity.
  - vm_compute. reflexivity.
Qed.

(** * Further properties of the functions of [decision_tree.py] *)

(** ** Errors of the loops *)

Lemma getitem_cases (k : string) (r : record) :
  (exists v, getitem k r = Ok v) \/ getitem k r = Raise KeyError.
Proof.
  induction r as [| [k' v] r IH]; simpl; [now right |].
  destruct (String.eqb k' k); eauto.
Qed.

Lemma getitem_keys (k : string) (r : record) :
  getitem k r = Raise KeyError <-> ~ In k (keys r).
Proof.
  induction r as [| [k' v] r IH]; simpl; [tauto |].
  destruct (String.eqb_spec k' k) as [-> | Hne].
  - split; [discriminate | tauto].
  - rewrite IH. tauto.
Qed.

Lemma mapM_Exists_error {A B : Type} (f : A -> result B) (l : list A)
  (e : exn) :
  (forall x, In x l -> (exists y, f x = Ok y) \/ f x = Raise e) ->
  Exists (fun x => f x = Raise e) l -> mapM f l = Raise e.
Proof.
  induction l as [| x l IH]; simpl; intros Hf Hex; [inversion Hex |].
  destruct (Hf x (or_introl eq_refl)) as [[y Hy] | Hx].
  - rewrite Hy. cbn [bind]. inversion Hex as [? ? Hx | ? ? Hl]; subst;
      [congruence |].
    rewrite IH; auto.
  - now rewrite Hx.
Qed.

Lemma foldM_Exists_error {A S : Type} (f : S -> A -> result S) (l : list A)
  (e : exn) (P : A -> Prop) :
  (forall s x, In x l -> (exists s', f s x = Ok s') \/ f s x = Raise e) ->
  (forall s x, P x -> f s x = Raise e) ->
  Exists P l -> forall s, foldM f l s = Raise e.
Proof.
  induction l as [| x l IH]; simpl; intros Hf HP Hex s; [inversion Hex |].
  destruct (Hf s x (or_introl eq_refl)) as [[s' Hs'] | Hx].
  - rewrite Hs'. cbn [bind]. inversion Hex as [? ? Hx | ? ? Hl]; subst.
    + rewrite (HP s x Hx) in Hs'. discriminate.
    + apply IH; auto.
  - now rewrite Hx.
Qed.

Lemma mapM_Ok_Forall {A B : Type} (f : A -> result B) (l : list A) :
  Forall (fun x => exists y, f x = Ok y) l -> exists l', mapM f l = Ok l'.
Proof.
  induction 1 as [| x l [y Hy] _ [l' IH]]; simpl; [eauto |].
  rewrite Hy, IH. simpl. eauto.
Qed.

(** ** The majority label *)

Lemma count_classes (l : list record) :
  forall n0,
    Forall (fun r => In "class" (keys r)) l ->
    foldM (fun n data_point =>
             c <- getitem "class" data_point ;; Ok (bump c n)) l n0
    = Ok (fst n0 + fst (class_counts l), snd n0 + snd (class_counts l))%nat.
Proof.
  unfold class_counts. cbn [fst snd].
  induction l as [| r l IH]; intros [a b] H; simpl.
  - now rewrite !Nat.add_0_r.
  - inversion H as [| ? ? Hr Hl]; subst.
    destruct (In_keys_getitem _ _ Hr) as [c Hc].
    rewrite Hc. cbn [bind]. rewrite (IH _ Hl).
    unfold is_class_0, bump. rewrite Hc.
    destruct (value_eqb c (VInt 0)); simpl; f_equal; f_equal; lia.
Qed.

(** X1: the majority label is 0 when the records of class 0 are strictly
    more than the others, and 1 otherwise (on a tie, on no record at all);
    a record without a class is a [KeyError]. *)
Theorem majority_label_spec (data : list record) :
  (Forall (fun r => In "class" (keys r)) data ->
   majority_label data
   = Ok (if (snd (class_counts data) <? fst (class_counts data))%nat
         then 0 else 1))
  /\ (Exists (fun r => ~ In "class" (keys r)) data ->
      majority_label data = Raise KeyError).
Proof.
  split; intros H; unfold majority_label.
  - rewrite (count_classes data (0, 0)%nat H). reflexivity.
  - rewrite (foldM_Exists_error _ data KeyError
               (fun r => ~ In "class" (keys r))); [reflexivity | | | exact H].
    + intros s x _. destruct (getitem_cases "class" x) as [[c Hc] | Hc];
        rewrite Hc; simpl; eauto.
    + intros s x Hx. apply getitem_keys in Hx. now rewrite Hx.
Qed.

(** ** The counts *)

Lemma totals_from (c : counts) :
  forall t0,
    fold_left (fun t kc => (fst t + fst (snd kc), snd t + snd (snd kc))%nat)
              c t0
    = (fst t0 + fst (totals c), snd t0 + snd (totals c))%nat.
Proof.
  unfold totals. induction c as [| kc c IH]; intros [a b]; simpl.
  - now rewrite !Nat.add_0_r.
  - rewrite IH. rewrite (IH (fst (snd kc), snd (snd kc))). simpl.
    f_equal; lia.
Qed.

Lemma totals_cons (kc : value * (nat * nat)) (c : counts) :
  totals (kc :: c)
  = (fst (snd kc) + fst (totals c), snd (snd kc) + snd (totals c))%nat.
Proof. unfold totals at 1. simpl. now rewrite totals_from. Qed.

Lemma totals_counts_add (k : value) (positive : bool) (c : counts) :
  (fst (totals (counts_add k positive c)) + snd (totals (counts_add k positive c))
   = S (fst (totals c) + snd (totals c)))%nat.
Proof.
  induction c as [| [k' [n0 n1]] c IH]; simpl.
  - destruct positive; reflexivity.
  - destruct (value_eqb k' k).
    + rewrite !totals_cons. destruct positive; simpl; lia.
    + rewrite !totals_cons. simpl. lia.
Qed.

Lemma threshold_counts_total {rt : PyRuntime} (a : string) (t : Z) (data : list record) :
  forall below above below' above',
    foldM (fun counts item =>
             let '(below, above) := counts in
             c <- getitem "class" item ;;
             if value_eqb c (VInt 0) then
               z <- int_item a item ;;
               if z <? t
               then Ok ((S (fst below), snd below), above)
               else (z' <- int_item a item ;;
                     Ok (below, (S (fst above), snd above)))
             else if value_eqb c (VInt 1) then
               z <- int_item a item ;;
               if z <? t
               then Ok ((fst below, S (snd below)), above)
               else Ok (below, (fst above, S (snd above)))
             else Ok (below, (fst above, S (snd above))))
          data (below, above) = Ok (below', above') ->
    (fst below' + snd below' + (fst above' + snd above')
     = fst below + snd below + (fst above + snd above) + List.length data)%nat.
Proof.
  induction data as [| r data IH]; simpl; intros below above below' above' H.
  - injection H as <- <-. lia.
  - inv_bind H. destruct x as [b1 a1]. apply IH in H. rewrite H. clear H IH.
    inv_bind E. destruct (value_eqb x (VInt 0)).
    + inv_bind E. destruct (x0 <? t).
      * injection E as <- <-. simpl. lia.
      * inv_bind E. injection E as <- <-. simpl. lia.
    + destruct (value_eqb x (VInt 1)).
      * inv_bind E. destruct (x0 <? t); injection E as <- <-; simpl; lia.
      * injection E as <- <-. simpl. lia.
Qed.

(** X2: the counts that [get_counts] returns add up to the number of the
    records, with a threshold or without one: every record is counted once. *)
Theorem get_counts_total {rt : PyRuntime} (data : list record) (a : string) (thr : option Z)
  (c : counts) :
  get_counts data a thr = Ok c ->
  (fst (totals c) + snd (totals c) = List.length data)%nat.
Proof.
  destruct thr as [t |]; simpl.
  - unfold get_counts_threshold. intros H. inv_bind H.
    destruct x as [below above]. injection H as <-.
    apply threshold_counts_total in E.
    rewrite !totals_cons. unfold totals. simpl in *. lia.
  - assert (Hgen : forall l c0 c',
               foldM (fun counts item =>
                        cl <- getitem "class" item ;;
                        k <- getitem a item ;;
                        Ok (counts_add k (negb (value_eqb cl (VInt 0))) counts))
                     l c0 = Ok c' ->
               (fst (totals c') + snd (totals c')
                = fst (totals c0) + snd (totals c0) + List.length l)%nat).
    { induction l as [| r l IH]; simpl; intros c0 c' H.
      - injection H as <-. lia.
      - inv_bind H. apply IH in H. rewrite H.
        inv_bind E. inv_bind E. injection E as <-.
        rewrite totals_counts_add. lia. }
    intros H. apply Hgen in H. exact H.
Qed.

Lemma get_counts_total_witness :
  (fst (totals [(VStr "red", (0, 2)%nat); (VStr "blue", (2, 0)%nat)])
   + snd (totals [(VStr "red", (0, 2)%nat); (VStr "blue", (2, 0)%nat)])
   = List.length colours)%nat.
Proof.
  apply (get_counts_total (rt := reference_runtime) colours "colour" None).
  vm_compute. reflexivity.
Defined.

(** ** The subsets of a split *)

Lemma split_threshold_Ok {rt : PyRuntime} (a : string) (t : Z)
  (data : list record) :
  Forall (fun r => exists z, int_item a r = Ok z) data ->
  forall acc, exists acc',
      foldM (fun data_categories data_point =>
               let '(below, above) := data_categories in
               z <- int_item a data_point ;;
               if z <? t
               then Ok (below ++ [data_point], above)
               else Ok (below, above ++ [data_point]))
            data acc = Ok acc'.
Proof.
  induction 1 as [| r data [z Hz] _ IH]; intros [below above]; simpl;
    [eauto |].
  rewrite Hz. simpl. destruct (z <? t); apply IH.
Qed.

(** X3: a split at a threshold returns when, and only when, the value of
    the attribute is an integer in every record; the two subsets are then
    [below], the records under the threshold, and [above], the records at
    or over it, each in the order of the data, and together they are the
    data: no record is lost or repeated. *)
Theorem split_threshold_partition {rt : PyRuntime}
  (data : list record) (a : string) (t : Z) :
  (Forall (fun r => exists z, int_item a r = Ok z) data <->
   exists subsets, split_on_attribute data a (Some t) = Ok subsets)
  /\ (forall subsets,
         split_on_attribute data a (Some t) = Ok subsets ->
         exists below above,
           subsets = [(below, VStr "below"); (above, VStr "above")]
           /\ below = filter (below_threshold a t) data
           /\ above = filter (above_threshold a t) data
           /\ (forall r, In r below -> exists z, int_item a r = Ok z /\ z < t)
           /\ (forall r, In r above -> exists z, int_item a r = Ok z /\ t <= z)
           /\ Permutation (below ++ above) data).
Proof.
  split; [split |].
  - intros H. cbn [split_on_attribute]. unfold split_on_attribute_threshold.
    destruct (split_threshold_Ok a t data H ([], [])) as [[below above] E].
    rewrite E. simpl. eauto.
  - intros [subsets H]. cbn [split_on_attribute] in H.
    now apply split_threshold_spec in H.
  - intros subsets H. cbn [split_on_attribute] in H.
    apply split_threshold_spec in H. destruct H as [-> Hall].
    do 2 eexists. repeat split; try reflexivity.
    + intros r Hr. apply filter_In in Hr. destruct Hr as [_ Hr].
      unfold below_threshold in Hr.
      destruct (int_item a r) as [z |]; [| discriminate].
      exists z. split; [reflexivity | now apply Z.ltb_lt].
    + intros r Hr. apply filter_In in Hr. destruct Hr as [_ Hr].
      unfold above_threshold in Hr.
      destruct (int_item a r) as [z |]; [| discriminate].
      exists z. split; [reflexivity |].
      apply negb_true_iff, Z.ltb_ge in Hr. exact Hr.
    + now apply threshold_filters_partition.
Qed.

(** The categories of the groups stay distinct, every group holds records
    of its category, and the groups together hold the records added. *)
Lemma group_add_keys (k : value) (x : record) (g : list (value * list record)) :
  forall k', In k' (map fst (group_add k x g)) -> k' = k \/ In k' (map fst g).
Proof.
  induction g as [| [k0 xs0] g IH]; simpl; intros k' H.
  - destruct H as [<- | []]. now left.
  - destruct (value_eqb k0 k); simpl in H.
    + now right.
    + destruct H as [<- | H]; [right; now left |].
      destruct (IH _ H); auto.
Qed.

Lemma group_add_NoDup (k : value) (x : record) (g : list (value * list record)) :
  NoDup (map fst g) -> NoDup (map fst (group_add k x g)).
Proof.
  induction g as [| [k0 xs0] g IH]; simpl; intros H.
  - repeat constructor. tauto.
  - inversion H as [| ? ? Hk0 Hg]; subst.
    destruct (value_eqb k0 k) eqn:E; simpl; [now constructor |].
    constructor; [| auto].
    intros Hin. apply group_add_keys in Hin. destruct Hin as [-> | Hin];
      [| contradiction].
    assert (value_eqb k k = true) by now apply value_eqb_eq.
    congruence.
Qed.

Lemma group_add_Forall (P : value -> list record -> Prop) (k : value)
  (x : record) (g : list (value * list record)) :
  P k [x] -> (forall xs, P k xs -> P k (xs ++ [x])) ->
  Forall (fun kx => P (fst kx) (snd kx)) g ->
  Forall (fun kx => P (fst kx) (snd kx)) (group_add k x g).
Proof.
  intros H1 Happ. induction 1 as [| [k0 xs0] g Hk0 Hg IH]; simpl.
  - now repeat constructor.
  - destruct (value_eqb k0 k) eqn:E.
    + apply value_eqb_eq in E. subst k0. constructor; [| assumption].
      simpl in *. auto.
    + constructor; assumption.
Qed.

Lemma group_add_Permutation (k : value) (x : record)
  (g : list (value * list record)) :
  Permutation (List.concat (map snd (group_add k x g)))
              (List.concat (map snd g) ++ [x]).
Proof.
  induction g as [| [k0 xs0] g IH]; simpl; [reflexivity |].
  destruct (value_eqb k0 k); simpl.
  - rewrite <- !app_assoc. apply Permutation_app_head, Permutation_app_comm.
  - rewrite <- app_assoc. now apply Permutation_app_head.
Qed.

Lemma getitem_keys_Ok (k : string) (r : record) :
  (exists v, getitem k r = Ok v) -> In k (keys r).
Proof.
  intros [v H]. apply getitem_In in H.
  apply in_map_iff. now exists (k, v).
Qed.

Lemma group_fold (a : string) (data : list record) :
  forall g g',
    foldM (fun g data_point =>
             k <- getitem a data_point ;; Ok (group_add k data_point g))
          data g = Ok g' ->
    NoDup (map fst g) ->
    Forall (fun kx => snd kx <> []
                      /\ Forall (fun r => getitem a r = Ok (fst kx)) (snd kx)) g ->
    NoDup (map fst g')
    /\ Forall (fun kx => snd kx <> []
                         /\ Forall (fun r => getitem a r = Ok (fst kx)) (snd kx)) g'
    /\ Permutation (List.concat (map snd g')) (List.concat (map snd g) ++ data)
    /\ Forall (fun r => In a (keys r)) data.
Proof.
  induction data as [| r data IH]; simpl; intros g g' H Hnd Hall.
  - injection H as <-. rewrite app_nil_r. auto.
  - inv_bind H. inv_bind E. injection E as <-.
    apply IH in H.
    + destruct H as (H1 & H2 & H3 & H4). repeat split; try assumption.
      * rewrite H3, group_add_Permutation, <- app_assoc. reflexivity.
      * constructor; [| assumption].
        apply getitem_keys_Ok. eauto.
    + now apply group_add_NoDup.
    + apply (group_add_Forall
               (fun k xs => xs <> [] /\ Forall (fun r => getitem a r = Ok k) xs));
        [| | assumption].
      * split; [discriminate | now repeat constructor].
      * intros xs [_ Hxs]. split; [now destruct xs |].
        apply Forall_app. split; [assumption | now repeat constructor].
Qed.

Lemma group_fold_Ok (a : string) (data : list record) :
  Forall (fun r => In a (keys r)) data ->
  forall g, exists g',
      foldM (fun g data_point =>
               k <- getitem a data_point ;; Ok (group_add k data_point g))
            data g = Ok g'.
Proof.
  induction 1 as [| r data Hr _ IH]; intros g; simpl; [eauto |].
  destruct (In_keys_getitem _ _ Hr) as [k Hk]. rewrite Hk. simpl. apply IH.
Qed.

(** X4: a split on the values of an attribute returns when, and only when,
    every record has the attribute; the categories of the subsets are then
    pairwise distinct, no subset is empty, the records of a subset have the
    category of the subset as their value, and the subsets together are the
    data: no record is lost or repeated. *)
Theorem split_categories_partition {rt : PyRuntime}
  (data : list record) (a : string) :
  (Forall (fun r => In a (keys r)) data <->
   exists subsets, split_on_attribute data a None = Ok subsets)
  /\ (forall subsets,
         split_on_attribute data a None = Ok subsets ->
         NoDup (map snd subsets)
         /\ Forall (fun sk =>
                      fst sk <> []
                      /\ Forall (fun r => getitem a r = Ok (snd sk)) (fst sk))
                   subsets
         /\ Permutation (List.concat (map fst subsets)) data).
Proof.
  cbn [split_on_attribute]. split; [split |].
  - intros H. destruct (group_fold_Ok a data H []) as [g' E].
    rewrite E. simpl. eauto.
  - intros [subsets H]. inv_bind H.
    apply group_fold in E; [tauto | constructor | constructor].
  - intros subsets H. inv_bind H. injection H as <-.
    apply group_fold in E; [| constructor | constructor].
    destruct E as (H1 & H2 & H3 & _). rewrite !map_map. simpl.
    repeat split.
    + exact H1.
    + apply Forall_map. exact H2.
    + exact H3.
Qed.

(** ** The counts are those of the subsets *)

Lemma class_counts_app (xs : list record) (x : record) :
  class_counts (xs ++ [x])
  = if is_class_0 x
    then (S (fst (class_counts xs)), snd (class_counts xs))
    else (fst (class_counts xs), S (snd (class_counts xs))).
Proof.
  unfold class_counts. rewrite !filter_app, !length_app. simpl.
  destruct (is_class_0 x); simpl; f_equal; lia.
Qed.

Lemma counts_add_groups (k : value) (item : record) (cl : value)
  (g : list (value * list record)) :
  getitem "class" item = Ok cl ->
  counts_add k (negb (value_eqb cl (VInt 0)))
             (map (fun kx => (fst kx, class_counts (snd kx))) g)
  = map (fun kx => (fst kx, class_counts (snd kx))) (group_add k item g).
Proof.
  intros Hcl.
  assert (Hitem : is_class_0 item = value_eqb cl (VInt 0))
    by (unfold is_class_0; now rewrite Hcl).
  induction g as [| [k0 xs0] g IH]; simpl.
  - unfold class_counts. simpl. rewrite Hitem.
    now destruct (value_eqb cl (VInt 0)).
  - destruct (value_eqb k0 k); simpl.
    + rewrite class_counts_app, Hitem.
      now destruct (value_eqb cl (VInt 0)).
    + now rewrite IH.
Qed.

(** X5: the counts of an attribute without a threshold are the class counts
    of the subsets that the split on this attribute returns, category by
    category and in the same order. *)
Theorem get_counts_of_split {rt : PyRuntime}
  (data : list record) (a : string) (c : counts) :
  get_counts data a None = Ok c ->
  exists subsets,
    split_on_attribute data a None = Ok subsets
    /\ c = map (fun sk => (snd sk, class_counts (fst sk))) subsets.
Proof.
  cbn [get_counts split_on_attribute].
  assert (Hgen : forall l g c',
             foldM (fun counts item =>
                      cl <- getitem "class" item ;;
                      k <- getitem a item ;;
                      Ok (counts_add k (negb (value_eqb cl (VInt 0))) counts))
                   l (map (fun kx => (fst kx, class_counts (snd kx))) g)
             = Ok c' ->
             exists g',
               foldM (fun g data_point =>
                        k <- getitem a data_point ;;
                        Ok (group_add k data_point g)) l g = Ok g'
               /\ c' = map (fun kx => (fst kx, class_counts (snd kx))) g').
  { induction l as [| r l IH]; simpl; intros g c' H.
    - injection H as <-. eauto.
    - inv_bind H. inv_bind E. inv_bind E. injection E as <-.
      rewrite E1. cbn [bind].
      rewrite (counts_add_groups _ _ _ _ E0) in H. now apply IH. }
  intros H. destruct (Hgen data [] c H) as (g' & Hg' & ->).
  rewrite Hg'. cbn [bind]. eexists. split; [reflexivity |].
  now rewrite map_map.
Qed.

Lemma get_counts_of_split_witness :
  exists subsets,
    split_on_attribute (rt := reference_runtime) colours "colour" None
    = Ok subsets
    /\ [(VStr "red", (0, 2)%nat); (VStr "blue", (2, 0)%nat)]
       = map (fun sk => (snd sk, class_counts (fst sk))) subsets.
Proof.
  apply (get_counts_of_split (rt := reference_runtime) colours "colour").
  vm_compute. reflexivity.
Defined.

(** X6: when the class of every record is 0 or 1, the counts of an
    attribute at a threshold are the class counts of the records below the
    threshold and of the records at or above it. *)
Theorem get_counts_threshold_of_split {rt : PyRuntime}
  (data : list record) (a : string) (t : Z) (c : counts) :
  Forall (fun r => getitem "class" r = Ok (VInt 0)
                   \/ getitem "class" r = Ok (VInt 1)) data ->
  get_counts data a (Some t) = Ok c ->
  split_on_attribute data a (Some t)
  = Ok [(filter (below_threshold a t) data, VStr "below");
        (filter (above_threshold a t) data, VStr "above")]
  /\ c = [(VStr "below", class_counts (filter (below_threshold a t) data));
          (VStr "above", class_counts (filter (above_threshold a t) data))].
Proof.
  cbn [get_counts]. unfold get_counts_threshold.
  assert (Hgen : forall l b0 a0 b1 a1,
             Forall (fun r => getitem "class" r = Ok (VInt 0)
                              \/ getitem "class" r = Ok (VInt 1)) l ->
             foldM (fun counts item =>
               let '(below, above) := counts in
               c <- getitem "class" item ;;
               if value_eqb c (VInt 0) then
                 z <- int_item a item ;;
                 if z <? t
                 then Ok ((S (fst below), snd below), above)
                 else (z' <- int_item a item ;;
                       Ok (below, (S (fst above), snd above)))
               else if value_eqb c (VInt 1) then
                 z <- int_item a item ;;
                 if z <? t
                 then Ok ((fst below, S (snd below)), above)
                 else Ok (below, (fst above, S (snd above)))
               else Ok (below, (fst above, S (snd above))))
               l (b0, a0) = Ok (b1, a1) ->
             Forall (fun r => exists z, int_item a r = Ok z) l
             /\ b1 = (fst b0 + fst (class_counts (filter (below_threshold a t) l)),
                      snd b0 + snd (class_counts (filter (below_threshold a t) l)))%nat
             /\ a1 = (fst a0 + fst (class_counts (filter (above_threshold a t) l)),
                      snd a0 + snd (class_counts (filter (above_threshold a t) l)))%nat).
  { induction l as [| r l IH]; simpl; intros b0 a0 b1 a1 Hl Hf.
    - injection Hf as <- <-. unfold class_counts. simpl.
      rewrite !Nat.add_0_r. destruct b0, a0. auto.
    - inversion Hl as [| ? ? Hr Hl']; subst. inv_bind Hf.
      destruct x as [b2 a2]. apply (IH _ _ _ _ Hl') in Hf.
      destruct Hf as (Hint & -> & ->). clear IH.
      cbv beta iota in E.
      assert (Hstep : exists z,
                 int_item a r = Ok z
                 /\ (b2, a2)
                    = if z <? t
                      then (if is_class_0 r
                            then (S (fst b0), snd b0) else (fst b0, S (snd b0)),
                            a0)
                      else (b0,
                            if is_class_0 r
                            then (S (fst a0), snd a0) else (fst a0, S (snd a0)))).
      { unfold is_class_0.
        destruct Hr as [Hr | Hr]; rewrite Hr in *; cbn [bind] in E;
          simpl in E; inv_bind E; exists x; (split; [assumption |]);
          simpl; destruct (x <? t); try (inv_bind E); congruence. }
      destruct Hstep as (z & Hz & Heq).
      split; [constructor; eauto |].
      cbn [filter].
      replace (below_threshold a t r) with (z <? t)
        by (unfold below_threshold; now rewrite Hz).
      replace (above_threshold a t r) with (negb (z <? t))
        by (unfold above_threshold; now rewrite Hz).
      unfold class_counts.
      destruct (z <? t); cbn [negb filter];
        destruct (is_class_0 r); injection Heq as -> ->;
        cbn [negb List.length fst snd]; split; f_equal; lia. }
  intros Hclass H.
  inv_bind H. destruct x as [below above]. injection H as <-.
  destruct (Hgen data _ _ _ _ Hclass E) as (Hint & -> & ->). simpl.
  split; [| reflexivity].
  cbn [split_on_attribute]. unfold split_on_attribute_threshold.
  destruct (split_threshold_Ok a t data Hint ([], [])) as [[b ab] Hs].
  rewrite Hs. cbn [bind]. apply split_threshold_fold in Hs.
  destruct Hs as (-> & -> & _). reflexivity.
Qed.

Lemma get_counts_threshold_of_split_witness :
  split_on_attribute (rt := reference_runtime) workers "age" (Some 40)
  = Ok [(filter (below_threshold (rt := reference_runtime) "age" 40) workers,
         VStr "below");
        (filter (above_threshold (rt := reference_runtime) "age" 40) workers,
         VStr "above")]
  /\ [(VStr "below", (1, 1)%nat); (VStr "above", (1, 1)%nat)]
     = [(VStr "below",
         class_counts
           (filter (below_threshold (rt := reference_runtime) "age" 40) workers));
        (VStr "above",
         class_counts
           (filter (above_threshold (rt := reference_runtime) "age" 40) workers))].
Proof.
  apply (get_counts_threshold_of_split (rt := reference_runtime) workers "age" 40).
  - repeat (constructor; [first [left; reflexivity | right; reflexivity] |]).
    constructor.
  - vm_compute. reflexivity.
Defined.

(** ** Data of a single class *)

(** The side of a pair of counts that stays 0 when every record counted is
    of class 0 ([b = true]) or none is ([b = false]). *)
Lemma bump_side (b : bool) (r : record) (c : value) (n : nat * nat) :
  getitem "class" r = Ok c -> is_class_0 r = b ->
  (if b then snd n else fst n) = O ->
  (if b then snd (bump c n) else fst (bump c n)) = O.
Proof.
  unfold is_class_0, bump. intros -> <-.
  destruct (value_eqb c (VInt 0)); simpl; auto.
Qed.

Lemma counts_add_side (b : bool) (k : value) (c : counts) :
  Forall (fun kc => (if b then snd (snd kc) else fst (snd kc)) = O) c ->
  Forall (fun kc => (if b then snd (snd kc) else fst (snd kc)) = O)
         (counts_add k (negb b) c).
Proof.
  induction 1 as [| [k' [n0 n1]] c Hkc Hc IH]; simpl.
  - constructor; [| constructor]. now destruct b.
  - destruct (value_eqb k' k).
    + constructor; [| assumption]. destruct b; simpl in *; assumption.
    + constructor; assumption.
Qed.

Lemma get_counts_side {rt : PyRuntime} (b : bool) (data : list record)
  (a : string) (thr : option Z) (c : counts) :
  Forall (fun r => is_class_0 r = b) data ->
  get_counts data a thr = Ok c ->
  Forall (fun kc => (if b then snd (snd kc) else fst (snd kc)) = O) c.
Proof.
  intros Hdata. rewrite Forall_forall in Hdata.
  destruct thr as [t |]; cbn [get_counts].
  - unfold get_counts_threshold. intros H. inv_bind H.
    destruct x as [below above]. injection H as <-.
    pose (I := fun n : (nat * nat) * (nat * nat) =>
                (if b then snd (fst n) else fst (fst n)) = O
                /\ (if b then snd (snd n) else fst (snd n)) = O).
    assert (HI : I (below, above)).
    { apply (foldM_invariant _ I data) with (3 := E);
        [| unfold I; now destruct b].
      intros [b0 a0] r [b1 a1] Hr [Hb Ha] Hstep. cbv beta iota in Hstep.
      specialize (Hdata r Hr). unfold is_class_0 in Hdata.
      inv_bind Hstep. rewrite E0 in Hdata. unfold I. simpl in *.
      destruct (value_eqb x (VInt 0)).
      - inv_bind Hstep. subst b. destruct (x0 <? t);
          [| inv_bind Hstep]; injection Hstep as <- <-; auto.
      - subst b. destruct (value_eqb x (VInt 1));
          [inv_bind Hstep; destruct (x0 <? t) |];
          injection Hstep as <- <-; auto. }
    destruct HI as [Hb Ha]. repeat constructor; assumption.
  - intros H.
    apply (foldM_invariant _
             (Forall (fun kc => (if b then snd (snd kc) else fst (snd kc)) = O))
             data) with (3 := H); [| constructor].
    intros c0 r c1 Hr Hc0 Hstep. inv_bind Hstep. inv_bind Hstep.
    injection Hstep as <-. specialize (Hdata r Hr).
    unfold is_class_0 in Hdata. rewrite E in Hdata. rewrite Hdata.
    now apply counts_add_side.
Qed.

Lemma totals_side (b : bool) (c : counts) :
  Forall (fun kc => (if b then snd (snd kc) else fst (snd kc)) = O) c ->
  (if b then snd (totals c) else fst (totals c)) = O.
Proof.
  induction 1 as [| kc c Hkc _ IH]; [now destruct b |].
  rewrite totals_cons. destruct b; simpl; lia.
Qed.

Lemma gain_of_one_class_value {rt : PyRuntime} (b : bool) (data : list record)
  (a : string) (thr : option Z) (g : float) :
  Forall (fun r => is_class_0 r = b) data ->
  get_information_gain data a thr = Ok g ->
  g = 0%float.
Proof.
  intros Hdata H. unfold get_information_gain in H. inv_bind H.
  pose proof (get_counts_side b data a thr x Hdata E) as Hside.
  pose proof (totals_side b x Hside) as Htot.
  assert (Hent : negb (fst (totals x) =? 0)%nat && negb (snd (totals x) =? 0)%nat
                 = false).
  { destruct b; rewrite Htot; simpl; [apply andb_false_r | reflexivity]. }
  rewrite Hent in H.
  assert (Hcond : forall acc,
             fold_left
               (fun acc kc =>
                  let c0 := fst (snd kc) in
                  let c1 := snd (snd kc) in
                  if (c0 =? 0)%nat || (c1 =? 0)%nat then acc
                  else
                    let total := (c0 + c1)%nat in
                    let proportion := fdiv total (List.length data) in
                    let label_0 := plogp c0 total in
                    let label_1 := plogp c1 total in
                    (acc + proportion * (label_0 + label_1))%float)
               x acc = acc).
  { clear H E Hent Htot. induction Hside as [| kc c Hkc _ IH]; intros acc;
      [reflexivity |].
    simpl. destruct b; rewrite Hkc; simpl; [rewrite orb_true_r |]; apply IH. }
  cbv zeta in H. rewrite Hcond in H. injection H as <-.
  vm_compute. reflexivity.
Qed.

(** X7: on records that are all of class 0, or of which none is, the gain
    of every attribute is 0, at every threshold, whenever the counts can be
    taken: no logarithm is computed. *)
Theorem gain_of_one_class {rt : PyRuntime} (b : bool) (data : list record)
  (a : string) (thr : option Z) (c : counts) :
  Forall (fun r => is_class_0 r = b) data ->
  get_counts data a thr = Ok c ->
  get_information_gain data a thr = Ok 0%float.
Proof.
  intros Hdata Hc.
  destruct (get_information_gain data a thr) as [g | e] eqn:E.
  - f_equal. eapply gain_of_one_class_value; eassumption.
  - unfold get_information_gain in E. rewrite Hc in E. discriminate.
Qed.

Lemma gain_of_one_class_witness :
  get_information_gain (rt := reference_runtime) one_class "age" (Some 0)
  = Ok 0%float.
Proof.
  apply (gain_of_one_class (rt := reference_runtime) true one_class "age"
           (Some 0) [(VStr "below", (0, 0)%nat); (VStr "above", (2, 0)%nat)]).
  - repeat constructor.
  - vm_compute. reflexivity.
Defined.

Lemma count_below_side (b : bool) (a : string) (t : value) (l : list record) :
  forall n bt rest,
    Forall (fun r => is_class_0 r = b) l ->
    (if b then snd n else fst n) = O ->
    count_below l a t n = Ok (bt, rest) ->
    (if b then snd bt else fst bt) = O.
Proof.
  induction l as [| r l IH]; simpl; intros n bt rest Hl Hn H; [discriminate |].
  inversion Hl as [| ? ? Hr Hl']; subst.
  inv_bind H. inv_bind H. destruct x0.
  - inv_bind H. eapply IH; [exact Hl' | | exact H].
    now apply (bump_side _ r).
  - now injection H as <- _.
Qed.

Lemma threshold_score_of_one_class {rt : PyRuntime} (b : bool)
  (sorted_data : list record) (a : string) (v : value) (g : float) :
  Forall (fun r => is_class_0 r = b) sorted_data ->
  get_information_gain_threshold sorted_data a v = Ok g -> g = 0%float.
Proof.
  intros Hl H. unfold get_information_gain_threshold in H.
  inv_bind H. destruct x as [bt rest]. inv_bind H.
  assert (Hbt : (if b then snd bt else fst bt) = O).
  { eapply count_below_side; [exact Hl | | exact E]. now destruct b. }
  assert (Hz : has_zero bt = true).
  { unfold has_zero. destruct b; rewrite Hbt; simpl;
      [apply orb_true_r | reflexivity]. }
  cbv zeta in H. rewrite Hz in H. simpl in H. now injection H as <-.
Qed.

Lemma threshold_of_one_class_value {rt : PyRuntime} (b : bool)
  (data : list record) (a : string) (z : Z) :
  Forall (fun r => is_class_0 r = b) data ->
  find_threshold data a = Ok z ->
  z = 0.
Proof.
  intros Hdata H. unfold find_threshold in H. inv_bind H. inv_bind H.
  assert (Hsorted : Forall (fun r => is_class_0 r = b) x).
  { rewrite Forall_forall in *. intros r Hr. apply Hdata.
    eapply sorted_In; eassumption. }
  pose (I := fun s : search =>
              best_threshold s = VInt 0 /\ max_info_gain s = 0%float).
  assert (HI : I x0).
  { apply (foldM_invariant _ I x) with (3 := E0); [| now split].
    intros s item s' _ [Hbest Hmax] Hstep.
    unfold find_threshold_step in Hstep. inv_bind Hstep. inv_bind Hstep.
    destruct (negb (value_in x1 (tested s)) && _).
    - inv_bind Hstep.
      apply (threshold_score_of_one_class b) in E3; [| assumption].
      subst x3. rewrite Hmax in Hstep.
      change (0 <? 0)%float with false in Hstep.
      injection Hstep as <-. now split.
    - injection Hstep as <-. now split. }
  destruct HI as [Hbest _]. rewrite Hbest in H. now injection H as <-.
Qed.

(** X8: on records that are all of class 0, or of which none is, the
    threshold search returns 0 if it returns: every candidate scores 0. *)
Theorem threshold_of_one_class {rt : PyRuntime} (b : bool)
  (data : list record) (a : string) :
  Forall (fun r => is_class_0 r = b) data ->
  find_threshold data a = Ok 0 \/ exists e, find_threshold data a = Raise e.
Proof.
  intros Hdata. destruct (find_threshold data a) as [z | e] eqn:E.
  - left. f_equal. eapply threshold_of_one_class_value; eassumption.
  - right. eauto.
Qed.

Lemma threshold_of_one_class_witness :
  find_threshold (rt := reference_runtime) one_class "age" = Ok 0
  \/ exists e, find_threshold (rt := reference_runtime) one_class "age"
               = Raise e.
Proof.
  apply (threshold_of_one_class (rt := reference_runtime) true one_class "age").
  repeat constructor.
Defined.

Lemma find_threshold_range_witness :
  40 = 0 \/ exists r, In r workers
                      /\ int_item (rt := reference_runtime) "age" r = Ok 40.
Proof.
  apply (find_threshold_range (rt := reference_runtime) workers "age" 40).
  vm_compute. reflexivity.
Defined.

(** ** When the threshold search returns and when it raises *)

Lemma foldM_Ok {A S : Type} (f : S -> A -> result S) (I : S -> Prop)
  (l : list A) :
  (forall s x, In x l -> I s -> exists s', f s x = Ok s' /\ I s') ->
  forall s, I s -> exists s', foldM f l s = Ok s' /\ I s'.
Proof.
  induction l as [| x l IH]; simpl; intros Hf s Hs; [eauto |].
  destruct (Hf s x (or_introl eq_refl) Hs) as (s1 & Hs1 & HI1).
  rewrite Hs1. cbn [bind]. apply IH; [| assumption].
  intros s0 y Hy. apply Hf. now right.
Qed.

Lemma value_lt_kind (v w : value) :
  is_int v = is_int w -> exists b, value_lt v w = Ok b.
Proof. destruct v, w; simpl; intros H; try discriminate; eauto. Qed.

Lemma value_lt_irrefl (v : value) : value_lt v v = Ok false.
Proof.
  destruct v as [z | s]; simpl; f_equal.
  - apply Z.ltb_irrefl.
  - unfold String.ltb. pose proof (String.compare_antisym s s) as H.
    destruct (String.compare s s); simpl in H; try discriminate; reflexivity.
Qed.

Lemma count_below_Ok {rt : PyRuntime} (k : bool) (a : string) (v : value)
  (l : list record) :
  integer_column k a l -> is_int v = k ->
  Exists (fun r => getitem a r = Ok v) l ->
  forall n, exists bt rest, count_below l a v n = Ok (bt, rest) /\ incl rest l.
Proof.
  intros Hl Hv Hex. induction Hl as [| r l [(w & Hw & Hk & _) Hclass] Hl IH];
    intros n; [inversion Hex |].
  simpl. rewrite Hw. cbn [bind].
  destruct (value_lt_kind w v) as [b Hb]; [congruence |].
  rewrite Hb. cbn [bind]. destruct b.
  - destruct (In_keys_getitem _ _ Hclass) as [c Hc]. rewrite Hc. cbn [bind].
    inversion Hex as [? ? Hr | ? ? Hex']; subst.
    + assert (w = v) by congruence. subst w.
      rewrite value_lt_irrefl in Hb. discriminate.
    + destruct (IH Hex' (bump c n)) as (bt & rest & Hcount & Hincl).
      exists bt, rest. split; [assumption | now apply incl_tl].
  - exists n, (r :: l). split; [reflexivity | apply incl_refl].
Qed.

Lemma threshold_score_Ok {rt : PyRuntime} (k : bool) (a : string)
  (sorted_data : list record) (item : record) (v : value) :
  integer_column k a sorted_data -> In item sorted_data ->
  getitem a item = Ok v ->
  exists g, get_information_gain_threshold sorted_data a v = Ok g.
Proof.
  intros Hcol Hitem Hv. unfold get_information_gain_threshold.
  assert (Hk : is_int v = k).
  { unfold integer_column in Hcol. rewrite Forall_forall in Hcol.
    destruct (Hcol _ Hitem) as [(w & Hw & Hkind & _) _]. congruence. }
  assert (Hex : Exists (fun r => getitem a r = Ok v) sorted_data)
    by (apply Exists_exists; eauto).
  destruct (count_below_Ok k a v sorted_data Hcol Hk Hex (0, 0)%nat)
    as (bt & rest & Hcount & Hincl).
  rewrite Hcount. cbn [bind].
  destruct (foldM_Ok (fun counts_at item0 =>
                        c <- getitem "class" item0 ;; Ok (bump c counts_at))
                     (fun _ => True) rest) with (s := (0, 0)%nat)
    as (n & Hn & _); [| exact I |].
  - intros s r Hr _. unfold integer_column in Hcol.
    rewrite Forall_forall in Hcol.
    destruct (Hcol r (Hincl r Hr)) as [_ Hclass].
    destruct (In_keys_getitem _ _ Hclass) as [c Hc]. rewrite Hc. simpl. eauto.
  - rewrite Hn. cbn [bind]. cbv zeta. destruct (_ || _); eauto.
Qed.

(** X10: when every record has a class and an integer for the attribute,
    all of them [int] or all of them [str], the threshold search returns:
    the loop of the helper cannot run past the end of the sorted data, and
    the value it converts at the end is an integer. *)
Theorem find_threshold_returns {rt : PyRuntime} (k : bool) (a : string)
  (data : list record) :
  integer_column k a data -> exists t, find_threshold data a = Ok t.
Proof.
  intros Hcol. unfold find_threshold.
  assert (Hks : exists ks, mapM (getitem a) data = Ok ks
                           /\ Forall (fun v => is_int v = k) ks).
  { clear -Hcol. induction Hcol as [| r l [(v & Hv & Hk & _) _] _ (ks & Hks & Hall)];
      simpl; [eauto |].
    rewrite Hv, Hks. simpl. eauto. }
  destruct Hks as (ks & Hks & Hkind).
  assert (Hhom : homogeneous ks = true).
  { unfold homogeneous. apply orb_true_iff.
    destruct k; [left | right]; apply forallb_forall;
      rewrite Forall_forall in Hkind; intros v Hv;
      rewrite (Hkind v Hv); reflexivity. }
  destruct (sorted data a) as [sorted_data |] eqn:Hsorted;
    [| unfold sorted in Hsorted; rewrite Hks in Hsorted; simpl in Hsorted;
       rewrite Hhom in Hsorted; discriminate].
  cbn [bind].
  assert (Hcol' : integer_column k a sorted_data).
  { unfold integer_column in *. rewrite Forall_forall in *.
    intros r Hr. apply Hcol. eapply sorted_In; eassumption. }
  destruct (foldM_Ok (find_threshold_step sorted_data a)
                     (fun s => represents_integer (best_threshold s) = true)
                     sorted_data) with (s := mkSearch (VInt (-1)) 0%float (VInt 0) [])
    as (s & Hs & Hbest); [| reflexivity |].
  - intros s item Hitem Hs. unfold find_threshold_step.
    pose proof Hcol' as Hall. unfold integer_column in Hall.
    rewrite Forall_forall in Hall.
    destruct (Hall _ Hitem) as [(v & Hv & _ & Hint) Hclass].
    destruct (In_keys_getitem _ _ Hclass) as [c Hc].
    rewrite Hv, Hc. cbn [bind].
    destruct (negb (value_in v (tested s)) && _); [| eauto].
    destruct (threshold_score_Ok k a sorted_data item v Hcol' Hitem Hv)
      as [g Hg].
    rewrite Hg. cbn [bind]. destruct (max_info_gain s <? g)%float; eauto.
  - rewrite Hs. cbn [bind]. apply represents_integer_py_int, Hbest.
Qed.

Lemma find_threshold_returns_witness :
  exists t, find_threshold (rt := reference_runtime) workers "age" = Ok t.
Proof.
  apply (find_threshold_returns (rt := reference_runtime) true "age" workers).
  repeat (constructor;
          [split; [eexists; repeat split; reflexivity | simpl; tauto] |]).
  constructor.
Defined.

(** X11: the threshold search on no record returns 0; a record without the
    attribute is a [KeyError]; values of the attribute of which some are
    [int] and some [str] are a [TypeError] of the sort. *)
Theorem find_threshold_errors {rt : PyRuntime} (a : string) (data : list record) :
  find_threshold [] a = Ok 0
  /\ (Exists (fun r => ~ In a (keys r)) data ->
      find_threshold data a = Raise KeyError)
  /\ (forall ks, mapM (getitem a) data = Ok ks ->
                 Exists (fun v => is_int v = true) ks ->
                 Exists (fun v => is_int v = false) ks ->
                 find_threshold data a = Raise TypeError).
Proof.
  split; [reflexivity | split].
  - intros Hex. unfold find_threshold, sorted.
    rewrite (mapM_Exists_error (getitem a) data KeyError); [reflexivity | |].
    + intros r _. apply getitem_cases.
    + apply Exists_exists. apply Exists_exists in Hex.
      destruct Hex as (r & Hr & Hk). exists r. split; [assumption |].
      now apply getitem_keys.
  - intros ks Hks Hint Hstr. unfold find_threshold, sorted.
    rewrite Hks. cbn [bind].
    assert (Hhom : homogeneous ks = false).
    { unfold homogeneous. apply orb_false_iff.
      apply Exists_exists in Hint, Hstr.
      destruct Hint as (v & Hv & Hvi), Hstr as (w & Hw & Hwi).
      split.
      - destruct (forallb is_int ks) eqn:E; [| reflexivity].
        rewrite forallb_forall in E. rewrite (E w Hw) in Hwi. discriminate.
      - destruct (forallb (fun v => negb (is_int v)) ks) eqn:E; [| reflexivity].
        rewrite forallb_forall in E. specialize (E v Hv).
        rewrite Hvi in E. discriminate. }
    now rewrite Hhom.
Qed.

(** ** Classification *)

Lemma nodes_child (n child leaf : Node) :
  In child (children n) -> In leaf (nodes child) -> In leaf (nodes n).
Proof.
  destruct n as [a cs l c t]. cbn [children nodes]. intros Hc Hl.
  right. apply in_flat_map. eauto.
Qed.

(** X12: the label that classification returns is the label of a leaf of
    the tree: no label of an inner node, and no other value. *)
Theorem classify_returns_leaf_label {rt : PyRuntime} (item : record) (n : Node)
  (l : Z) :
  decision_tree_classify item n = Ok l ->
  exists leaf, In leaf (nodes n) /\ children leaf = [] /\ label leaf = l.
Proof.
  revert l. induction n as [a cs lb c t IH] using Node_induction. intros l H.
  destruct cs as [| c0 others].
  - simpl in H. injection H as <-.
    exists (mkNode a [] lb c t). simpl. auto.
  - assert (Hchild : forall child,
               In child (c0 :: others) ->
               decision_tree_classify item child = Ok l ->
               exists leaf, In leaf (nodes (mkNode a (c0 :: others) lb c t))
                            /\ children leaf = [] /\ label leaf = l).
    { intros child Hin Hl. rewrite Forall_forall in IH.
      destruct (IH child Hin l Hl) as (leaf & Hleaf & Hcs & Hlb).
      exists leaf. split; [| auto].
      eapply nodes_child; [| exact Hleaf]. exact Hin. }
    rewrite classify_node in H. inv_bind H.
    destruct (negb (represents_integer x)).
    + destruct (matching_child x (c0 :: others)) as [child |] eqn:Em.
      * apply (Hchild child); [eapply matching_child_In, Em | exact H].
      * apply (Hchild c0); [now left | exact H].
    + inv_bind H. inv_bind H. destruct (x0 <? x1).
      * apply (Hchild c0); [now left | exact H].
      * destruct others as [| c1 others]; [discriminate |].
        apply (Hchild c1); [right; now left | exact H].
Qed.

Lemma classify_returns_leaf_label_witness :
  exists leaf, In leaf (nodes colours_tree) /\ children leaf = []
               /\ label leaf = 1.
Proof.
  apply (classify_returns_leaf_label (rt := reference_runtime) green_item
           colours_tree 1).
  vm_compute. reflexivity.
Defined.

Lemma matching_child_first (v : value) (before after : list Node)
  (child : Node) :
  category child = Some v ->
  (forall c, In c before -> category c <> Some v) ->
  matching_child v (before ++ child :: after) = Some child.
Proof.
  intros Hc Hbefore. unfold matching_child.
  induction before as [| c before IH]; simpl.
  - rewrite Hc. now rewrite (proj2 (value_eqb_eq v v) eq_refl).
  - destruct (category c) as [c' |] eqn:Ec.
    + destruct (value_eqb c' v) eqn:E.
      * apply value_eqb_eq in E. subst c'.
        now elim (Hbefore c (or_introl eq_refl)).
      * apply IH. intros; apply Hbefore; now right.
    + apply IH. intros; apply Hbefore; now right.
Qed.

(** X13: at a node with children, a record whose value of the node's
    attribute is no integer is classified by the first child whose category
    is that value, whatever the children after it are. *)
Theorem classify_first_match {rt : PyRuntime} (item : record) (node : Node)
  (a : string) (v : value) (before after : list Node) (child : Node) :
  children node = before ++ child :: after ->
  attribute node = Some a ->
  getitem a item = Ok v ->
  represents_integer v = false ->
  category child = Some v ->
  (forall c, In c before -> category c <> Some v) ->
  decision_tree_classify item node = decision_tree_classify item child.
Proof.
  destruct node as [a' cs l c t]. cbn [children attribute].
  intros -> -> Hv Hint Hchild Hbefore.
  pose proof (matching_child_first v before after child Hchild Hbefore) as Hm.
  destruct (before ++ child :: after) as [| c0 others] eqn:Ecs;
    [now destruct before |].
  rewrite classify_node. cbn [getitem_opt]. rewrite Hv. cbn [bind].
  rewrite Hint. cbn [negb]. now rewrite Hm.
Qed.

Lemma classify_first_match_witness :
  decision_tree_classify (rt := reference_runtime)
    [("colour", VStr "blue")] colour_node
  = Ok 0.
Proof.
  rewrite (classify_first_match (rt := reference_runtime)
             [("colour", VStr "blue")] colour_node "colour" (VStr "blue")
             [mkNode None [] 1 (Some (VStr "red")) None] []
             (mkNode None [] 0 (Some (VStr "blue")) None)).
  - reflexivity.
  - reflexivity.
  - reflexivity.
  - reflexivity.
  - reflexivity.
  - reflexivity.
  - intros c [<- | []]. discriminate.
Defined.

(** ** The tree that the construction returns *)

Lemma build_labels {rt : PyRuntime} (fuel : nat) :
  forall data cat attributes max_depth depth n,
    _build_decision_tree fuel data cat attributes max_depth depth = Ok n ->
    Forall (fun m => label m = 0 \/ label m = 1) (nodes n)
    /\ majority_label data = Ok (label n).
Proof.
  induction fuel as [| fuel IH];
    intros data cat attributes max_depth depth n H; [discriminate |].
  apply build_inv in H.
  destruct H as (l & Hl & [-> | (s & best & d1 & v & subsets & cs & _ & _ & _
                                 & _ & _ & _ & _ & Hcs & ->)]).
  - split; [| exact Hl]. constructor; [| constructor].
    eapply majority_label_binary, Hl.
  - split; [| exact Hl]. apply nodes_node. split.
    + eapply majority_label_binary, Hl.
    + eapply mapM_Forall; [exact Hcs |].
      intros subset child _ Hchild. unfold build_child in Hchild.
      destruct (List.length (fst subset) =? 0)%nat.
      * inv_bind Hchild. injection Hchild as <-.
        constructor; [| constructor]. eapply majority_label_binary; eassumption.
      * inv_bind Hchild. eapply IH, Hchild.
Qed.

(** X14: the label of every node of a built tree is 0 or 1, whatever the
    data are, and the label of the root is the majority label of the data. *)
Theorem build_labels_binary {rt : PyRuntime} (data : list record)
  (max_depth : option Z) (tree : Node) :
  build_decision_tree data max_depth = Ok tree ->
  (forall n, In n (nodes tree) -> label n = 0 \/ label n = 1)
  /\ majority_label data = Ok (label tree).
Proof.
  unfold build_decision_tree. intros H. inv_bind H. inv_bind H. inv_bind H.
  apply build_labels in H. destruct H as [Hall Hroot].
  rewrite Forall_forall in Hall. auto.
Qed.

Lemma build_labels_binary_witness :
  (forall n, In n (nodes colours_tree) -> label n = 0 \/ label n = 1)
  /\ majority_label colours = Ok (label colours_tree).
Proof.
  apply (build_labels_binary (rt := reference_runtime) colours None).
  vm_compute. reflexivity.
Defined.

Lemma py_set_NoDup (l : list value) : NoDup l -> py_set l = l.
Proof.
  induction 1 as [| x l Hx _ IH]; simpl; [reflexivity |].
  destruct (value_in x l) eqn:E.
  - unfold value_in in E. apply existsb_exists in E.
    destruct E as (y & Hy & Hxy). apply value_eqb_eq in Hxy. now subst y.
  - now rewrite IH.
Qed.

(** X15: when the class labels of the records are pairwise distinct (as
    with a single record, or with one record of each class), the tree is a
    single leaf with the majority label, whatever the attributes are. *)
Theorem build_distinct_classes {rt : PyRuntime} (data : list record)
  (max_depth : option Z) (classes : list value) (tree : Node) :
  mapM (getitem "class") data = Ok classes ->
  NoDup classes ->
  build_decision_tree data max_depth = Ok tree ->
  exists l, majority_label data = Ok l /\ tree = new_node None l.
Proof.
  unfold build_decision_tree. intros Hcl Hnd H.
  inv_bind H. inv_bind H. inv_bind H.
  cbn [_build_decision_tree] in H. rewrite Hcl in H. cbn [bind] in H.
  inv_bind H. rewrite (py_set_NoDup _ Hnd), Nat.eqb_refl, orb_true_r in H.
  injection H as <-. eauto.
Qed.

Lemma build_distinct_classes_witness :
  exists l, majority_label two_classes = Ok l
            /\ new_node None 1 = new_node None l.
Proof.
  apply (build_distinct_classes (rt := reference_runtime) two_classes None
           [VInt 0; VInt 1]).
  - reflexivity.
  - repeat constructor; simpl; intuition discriminate.
  - vm_compute. reflexivity.
Defined.

Lemma list_remove_absent (x : string) (l : list string) :
  ~ In x l -> list_remove x l = Raise ValueError.
Proof.
  induction l as [| y l IH]; simpl; intros H; [reflexivity |].
  destruct (String.eqb_spec y x) as [-> | Hne]; [tauto |].
  rewrite IH; [reflexivity | tauto].
Qed.

Lemma list_remove_present (x : string) (l : list string) :
  In x l -> exists l', list_remove x l = Ok l'.
Proof.
  induction l as [| y l IH]; simpl; intros H; [tauto |].
  destruct (String.eqb_spec y x) as [-> | Hne]; [eauto |].
  destruct H as [H | H]; [contradiction |].
  destruct (IH H) as [l' ->]. simpl. eauto.
Qed.

Lemma list_remove_keeps (x y : string) (l l' : list string) :
  list_remove x l = Ok l' -> In y l -> y <> x -> In y l'.
Proof.
  revert l'. induction l as [| z l IH]; simpl; intros l' H Hy Hne; [tauto |].
  destruct (String.eqb_spec z x) as [-> | Hzx].
  - injection H as <-. destruct Hy; [congruence | assumption].
  - inv_bind H. injection H as <-. destruct Hy as [-> | Hy]; [now left |].
    right. eauto.
Qed.

(** X16: the construction raises [IndexError] on no record, [ValueError]
    when the first record lacks [fnlwgt] or [class] (the attributes are
    the keys of the first record, from which both are removed), and
    [KeyError] when the first record has both and another one lacks
    [class]. *)
Theorem build_errors {rt : PyRuntime} (data : list record)
  (max_depth : option Z) (d0 : record) :
  build_decision_tree [] max_depth = Raise IndexError
  /\ (first data = Ok d0 ->
      ~ In "fnlwgt" (keys d0) \/ ~ In "class" (keys d0) ->
      build_decision_tree data max_depth = Raise ValueError)
  /\ (first data = Ok d0 ->
      In "fnlwgt" (keys d0) -> In "class" (keys d0) ->
      Exists (fun r => ~ In "class" (keys r)) data ->
      build_decision_tree data max_depth = Raise KeyError).
Proof.
  split; [reflexivity | split].
  - intros Hd0 Hno. unfold build_decision_tree. rewrite Hd0. cbn [bind].
    destruct (in_dec string_dec "fnlwgt" (keys d0)) as [Hf | Hf].
    + destruct (list_remove_present _ _ Hf) as [l' Hl']. rewrite Hl'.
      cbn [bind]. rewrite list_remove_absent; [reflexivity |].
      intros Hc. apply (list_remove_incl _ _ _ Hl') in Hc. tauto.
    + now rewrite list_remove_absent.
  - intros Hd0 Hf Hc Hex. unfold build_decision_tree. rewrite Hd0. cbn [bind].
    destruct (list_remove_present _ _ Hf) as [l' Hl']. rewrite Hl'. cbn [bind].
    destruct (list_remove_present "class" l') as [l'' Hl''].
    { eapply list_remove_keeps; [exact Hl' | exact Hc | discriminate]. }
    rewrite Hl''. cbn [bind _build_decision_tree].
    rewrite (mapM_Exists_error (getitem "class") data KeyError);
      [reflexivity | |].
    + intros r _. apply getitem_cases.
    + apply Exists_exists. apply Exists_exists in Hex.
      destruct Hex as (r & Hr & Hk). exists r. split; [assumption |].
      now apply getitem_keys.
Qed.

Lemma build_attributes_call {rt : PyRuntime} (fuel : nat) :
  forall data cat attributes max_depth depth n,
    distinct attributes = true ->
    _build_decision_tree fuel data cat attributes max_depth depth = Ok n ->
    Forall (fun m =>
              forall a, attribute m = Some a ->
                        In a attributes
                        /\ forall d, In d (flat_map nodes (children m)) ->
                                     attribute d <> Some a)
           (nodes n).
Proof.
  induction fuel as [| fuel IH];
    intros data cat attributes max_depth depth n Hdist H; [discriminate |].
  apply build_inv in H.
  destruct H as (l & _ & [-> | (s & best & d1 & v & subsets & cs & _ & _ & Hs
                                 & Hbest & _ & _ & _ & Hcs & ->)]).
  - constructor; [| constructor]. intros a Ha. discriminate.
  - destruct (select_inv _ _ _ _ Hs Hbest) as [Hin _].
    destruct (list_remove_present _ _ Hin) as [na Hna].
    destruct (list_remove_distinct _ _ _ Hdist Hna) as [Hdist' Hother].
    assert (Hchildren :
              Forall (fun child =>
                        Forall (fun m =>
                                  forall a, attribute m = Some a ->
                                            In a na
                                            /\ forall d,
                                                In d (flat_map nodes (children m)) ->
                                                attribute d <> Some a)
                               (nodes child)) cs).
    { eapply mapM_Forall; [exact Hcs |].
      intros subset child _ Hchild. unfold build_child in Hchild.
      destruct (List.length (fst subset) =? 0)%nat.
      - inv_bind Hchild. injection Hchild as <-.
        constructor; [| constructor]. intros a Ha. discriminate.
      - rewrite Hna in Hchild. cbn [bind] in Hchild.
        eapply IH; [exact Hdist' | exact Hchild]. }
    apply nodes_node. split.
    + cbn [attribute children]. intros a Ha. injection Ha as <-.
      split; [assumption |]. intros d Hd Hattr.
      apply in_flat_map in Hd. destruct Hd as (child & Hchild & Hd).
      rewrite Forall_forall in Hchildren.
      pose proof (Hchildren child Hchild) as Hall.
      rewrite Forall_forall in Hall.
      destruct (Hall d Hd best Hattr) as [Hbad _].
      destruct (Hother _ Hbad) as [_ Hne]. congruence.
    + eapply Forall_impl; [| exact Hchildren].
      intros child Hall. eapply Forall_impl; [| exact Hall].
      intros m Hm a Ha. destruct (Hm a Ha) as [Hina Hd].
      split; [| assumption]. destruct (Hother _ Hina). assumption.
Qed.

(** X17: when the keys of the first record are distinct, every attribute
    that a node of the tree splits on is a key of the first record other
    than [fnlwgt] and [class], and no node below that node splits on the
    same attribute again. *)
Theorem build_attributes {rt : PyRuntime} (data : list record)
  (max_depth : option Z) (d0 : record) (tree : Node) :
  first data = Ok d0 ->
  distinct (keys d0) = true ->
  build_decision_tree data max_depth = Ok tree ->
  forall n a,
    In n (nodes tree) -> attribute n = Some a ->
    In a (keys d0) /\ reserved a = false
    /\ forall d, In d (flat_map nodes (children n)) -> attribute d <> Some a.
Proof.
  unfold build_decision_tree. intros Hd0 Hdist H. rewrite Hd0 in H.
  cbn [bind] in H. inv_bind H. inv_bind H.
  destruct (list_remove_distinct _ _ _ Hdist E) as [Hdist' Hx].
  destruct (list_remove_distinct _ _ _ Hdist' E0) as [Hdist'' Hx0].
  apply build_attributes_call in H; [| exact Hdist''].
  rewrite Forall_forall in H. intros n a Hn Ha.
  destruct (H n Hn a Ha) as [Hin Hbelow].
  destruct (Hx0 _ Hin) as [Hin' Hclass]. destruct (Hx _ Hin') as [Hkey Hfnlwgt].
  repeat split; try assumption.
  unfold reserved. apply orb_false_iff.
  split; apply String.eqb_neq; assumption.
Qed.

Lemma build_attributes_witness :
  In "colour" (keys (person 20 "red" 1)) /\ reserved "colour" = false
  /\ forall d, In d (flat_map nodes (children colours_tree)) ->
               attribute d <> Some "colour".
Proof.
  apply (build_attributes (rt := reference_runtime) colours None
           (person 20 "red" 1) colours_tree).
  - reflexivity.
  - reflexivity.
  - vm_compute. reflexivity.
  - simpl. auto.
  - reflexivity.
Defined.

(** ** The baseline *)

Lemma baseline_loop {rt : PyRuntime} (data : list record) (l : list string)
  (s : float * option string) (best : string) :
  foldM (baseline_step data) l (0%float, None) = Ok s ->
  snd s = Some best -> In best l /\ best <> "fnlwgt".
Proof.
  intros H Hbest.
  pose (I := fun s : float * option string =>
              snd s = None \/ exists a, snd s = Some a /\ In a l /\ a <> "fnlwgt").
  assert (HI : I s).
  { apply (foldM_invariant (baseline_step data) I l) with (3 := H);
      [| now left].
    intros s0 a s1 Ha Hs0 Hstep. unfold baseline_step in Hstep.
    destruct (String.eqb_spec a "fnlwgt") as [-> | Hne].
    - now injection Hstep as <-.
    - inv_bind Hstep. destruct (fst s0 <? _)%float.
      + injection Hstep as <-. right. exists a. auto.
      + now injection Hstep as <-. }
  destruct HI as [Hnone | (a & Ha & Hin & Hne)]; [congruence |].
  assert (a = best) by congruence. subst a. auto.
Qed.

Lemma get_counts_threshold_keys {rt : PyRuntime} (data : list record)
  (a : string) (t : Z) (c : counts) :
  get_counts data a (Some t) = Ok c ->
  map fst c = [VStr "below"; VStr "above"].
Proof.
  cbn [get_counts]. unfold get_counts_threshold. intros H. inv_bind H.
  destruct x. now injection H as <-.
Qed.

(** X18: the attribute that the baseline returns is a key of the first
    record other than [fnlwgt]; every label of the mapping is 0 or 1; for
    an integer attribute the keys of the mapping are [below] and [above];
    for another attribute the mapping gives each category of the attribute
    the majority label of its own counts. *)
Theorem find_baseline_attribute_result {rt : PyRuntime} (data : list record)
  (best : string) (labels : list (value * Z)) :
  find_baseline_attribute data = Ok (best, labels) ->
  exists d0 v,
    first data = Ok d0 /\ getitem best d0 = Ok v /\ best <> "fnlwgt"
    /\ (forall k l, In (k, l) labels -> l = 0 \/ l = 1)
    /\ (represents_integer v = true ->
        map fst labels = [VStr "below"; VStr "above"])
    /\ (represents_integer v = false ->
        exists c, get_counts data best None = Ok c
                  /\ labels = map (fun kc => (fst kc, majority_of (snd kc))) c).
Proof.
  unfold find_baseline_attribute. intros H. inv_bind H. inv_bind H.
  destruct x0 as [ratio [b |]]; [| discriminate].
  inv_bind H. injection H as <- <-.
  destruct (baseline_loop data (keys x) _ b E0 eq_refl) as [_ Hne].
  unfold baseline_counts in E1. rewrite E in E1. cbn [bind] in E1.
  inv_bind E1.
  match goal with
  | Hv : getitem b x = Ok ?v |- _ => exists x, v; rename Hv into Hv0
  end.
  repeat split; try assumption.
  - intros k l Hin. apply in_map_iff in Hin.
    destruct Hin as (kc & Hkc & _). injection Hkc as _ <-.
    apply majority_of_binary.
  - intros Hint. rewrite Hint in E1. inv_bind E1.
    rewrite map_map. simpl. eapply get_counts_threshold_keys, E1.
  - intros Hint. rewrite Hint in E1. eauto.
Qed.

Lemma find_baseline_attribute_result_witness :
  exists d0 v,
    first workers = Ok d0 /\ getitem "age" d0 = Ok v /\ "age" <> "fnlwgt"
    /\ (forall k l, In (k, l) [(VStr "below", 0); (VStr "above", 1)] ->
                    l = 0 \/ l = 1)
    /\ (represents_integer (rt := reference_runtime) v = true ->
        map fst [(VStr "below", 0); (VStr "above", 1)]
        = [VStr "below"; VStr "above"])
    /\ (represents_integer (rt := reference_runtime) v = false ->
        exists c, get_counts (rt := reference_runtime) workers "age" None = Ok c
                  /\ [(VStr "below", 0); (VStr "above", 1)]
                     = map (fun kc => (fst kc, majority_of (snd kc))) c).
Proof.
  apply (find_baseline_attribute_result (rt := reference_runtime) workers).
  vm_compute. reflexivity.
Defined.

Lemma baseline_labels_inv {rt : PyRuntime} (data : list record)
  (best : string) (labels : list (value * Z)) :
  find_baseline_attribute data = Ok (best, labels) ->
  exists d0 v c,
    first data = Ok d0 /\ getitem best d0 = Ok v
    /\ labels = map (fun kc => (fst kc, majority_of (snd kc))) c
    /\ (if represents_integer v
        then exists t, get_counts data best (Some t) = Ok c
        else get_counts data best None = Ok c).
Proof.
  unfold find_baseline_attribute. intros H. inv_bind H. inv_bind H.
  destruct x0 as [ratio [b |]]; [| discriminate].
  inv_bind H. injection H as <- <-.
  unfold baseline_counts in E1. rewrite E in E1. cbn [bind] in E1.
  inv_bind E1.
  do 3 eexists. split; [exact E |]. split; [eassumption |].
  split; [reflexivity |].
  destruct (represents_integer _); [| assumption].
  inv_bind E1. eauto.
Qed.

Lemma label_of_key (k : value) (c : counts) :
  existsb (fun kc => value_eqb (fst kc) k) c = true ->
  exists l, label_of k (map (fun kc => (fst kc, majority_of (snd kc))) c) = Ok l
            /\ (l = 0 \/ l = 1).
Proof.
  induction c as [| [k' n] c IH]; simpl; [discriminate |].
  destruct (value_eqb k' k); simpl; intros H.
  - eexists. split; [reflexivity | apply majority_of_binary].
  - auto.
Qed.

Lemma counts_add_key (k : value) (positive : bool) (c : counts) (v : value) :
  existsb (fun kc => value_eqb (fst kc) v) (counts_add k positive c) = true
  <-> v = k \/ existsb (fun kc => value_eqb (fst kc) v) c = true.
Proof.
  induction c as [| [k' [n0 n1]] c IH]; simpl.
  - rewrite orb_false_r, value_eqb_eq. intuition (subst; auto; discriminate).
  - destruct (value_eqb k' k) eqn:E; simpl.
    + apply value_eqb_eq in E. subst k'. rewrite orb_true_iff, value_eqb_eq.
      intuition (subst; auto).
    + rewrite !orb_true_iff, IH. tauto.
Qed.

Lemma get_counts_keys (a : string) (data : list record) :
  forall c0 c,
    foldM (fun counts item =>
             cl <- getitem "class" item ;;
             k <- getitem a item ;;
             Ok (counts_add k (negb (value_eqb cl (VInt 0))) counts))
          data c0 = Ok c ->
    (forall v, existsb (fun kc => value_eqb (fst kc) v) c0 = true ->
               existsb (fun kc => value_eqb (fst kc) v) c = true)
    /\ forall r, In r data ->
                 exists v, getitem a r = Ok v
                           /\ existsb (fun kc => value_eqb (fst kc) v) c = true.
Proof.
  induction data as [| r data IH]; simpl; intros c0 c H.
  - injection H as <-. split; [auto | tauto].
  - inv_bind H. inv_bind E. inv_bind E. injection E as <-.
    destruct (IH _ _ H) as [Hkeep Hdata]. split.
    + intros v Hv. apply Hkeep, counts_add_key. now right.
    + intros r' [<- | Hr']; [| auto].
      exists x1. split; [assumption |]. apply Hkeep, counts_add_key. now left.
Qed.

(** X19: with the mapping that the baseline returns, classification by an
    integer attribute returns 0 or 1 for every record with an integer and
    every threshold, and classification by another attribute returns 0 or
    1 for every record of the data: its category is a key of the mapping. *)
Theorem baseline_classify_returns {rt : PyRuntime} (data : list record)
  (best : string) (labels : list (value * Z)) (d0 : record) (v : value) :
  find_baseline_attribute data = Ok (best, labels) ->
  first data = Ok d0 -> getitem best d0 = Ok v ->
  (represents_integer v = true ->
   forall item t z,
     int_item best item = Ok z ->
     exists l, baseline_classify item best labels (Some t) = Ok l
               /\ (l = 0 \/ l = 1))
  /\ (represents_integer v = false ->
      forall r, In r data ->
                exists l, baseline_classify r best labels None = Ok l
                          /\ (l = 0 \/ l = 1)).
Proof.
  intros H Hd0 Hv. apply baseline_labels_inv in H.
  destruct H as (d0' & v' & c & Hd0' & Hv' & -> & Hc).
  assert (d0' = d0) by congruence. subst d0'.
  assert (v' = v) by congruence. subst v'.
  split; intros Hint; rewrite Hint in Hc.
  - destruct Hc as [t0 Hc]. intros item t z Hz.
    pose proof (get_counts_threshold_keys _ _ _ _ Hc) as Hkeys.
    destruct c as [| [k1 n1] [| [k2 n2] [| ? ?]]]; try discriminate.
    simpl in Hkeys. injection Hkeys as -> ->.
    unfold baseline_classify. rewrite Hz.
    unfold int_item in Hz. inv_bind Hz. rewrite E. cbn [bind].
    destruct (z <? t); simpl; eexists; (split; [reflexivity |]);
      apply majority_of_binary.
  - intros r Hr. cbn [get_counts] in Hc.
    destruct (get_counts_keys _ _ _ _ Hc) as [_ Hdata].
    destruct (Hdata r Hr) as (w & Hw & Hkey).
    unfold baseline_classify. rewrite Hw. cbn [bind].
    now apply label_of_key.
Qed.

Lemma baseline_classify_returns_witness :
  (represents_integer (rt := reference_runtime) (VInt 20) = true ->
   forall item t z,
     int_item (rt := reference_runtime) "age" item = Ok z ->
     exists l, baseline_classify (rt := reference_runtime) item "age"
                 [(VStr "below", 0); (VStr "above", 1)] (Some t) = Ok l
               /\ (l = 0 \/ l = 1))
  /\ (represents_integer (rt := reference_runtime) (VInt 20) = false ->
      forall r, In r workers ->
                exists l, baseline_classify (rt := reference_runtime) r "age"
                            [(VStr "below", 0); (VStr "above", 1)] None = Ok l
                          /\ (l = 0 \/ l = 1)).
Proof.
  apply (baseline_classify_returns (rt := reference_runtime) workers "age"
           [(VStr "below", 0); (VStr "above", 1)] (worker 20 10 0) (VInt 20)).
  - vm_compute. reflexivity.
  - reflexivity.
  - reflexivity.
Defined.

(** X20: the baseline raises [IndexError] on no record, and [KeyError]
    when the first record has no key other than [fnlwgt]: no attribute is
    chosen, and [data[0][None]] is looked up. *)
Theorem find_baseline_attribute_errors {rt : PyRuntime} (data : list record)
  (d0 : record) :
  find_baseline_attribute [] = Raise IndexError
  /\ (first data = Ok d0 ->
      (forall k, In k (keys d0) -> k = "fnlwgt") ->
      find_baseline_attribute data = Raise KeyError).
Proof.
  split; [reflexivity |]. intros Hd0 Hkeys.
  unfold find_baseline_attribute. rewrite Hd0. cbn [bind].
  assert (Hloop : forall l s, (forall k, In k l -> k = "fnlwgt") ->
                              foldM (baseline_step data) l s = Ok s).
  { induction l as [| k l IH]; intros s Hl; simpl; [reflexivity |].
    unfold baseline_step at 1. rewrite (Hl k (or_introl eq_refl)).
    simpl. apply IH. intros; apply Hl; now right. }
  rewrite (Hloop _ _ Hkeys). reflexivity.
Qed.

(** ** The display *)

Lemma display_from_0 (n : Node) :
  forall max_level, 0 <= max_level ->
                    display n max_level 0 = map (line_of O) (nodes n).
Proof.
  induction n as [a cs l c t IH] using Node_induction.
  intros max_level Hm.
  assert (Hcs : flat_map (fun child => display child 1 0) cs
                = map (line_of O) (flat_map nodes cs)).
  { induction IH as [| child cs Hchild _ IHcs]; cbn [flat_map];
      [reflexivity |].
    rewrite map_app, IHcs, (Hchild 1) by lia. reflexivity. }
  cbn [display nodes map]. change (0 + 1) with 1. rewrite Hcs.
  replace (0 >? max_level) with false
    by (symmetry; rewrite Z.gtb_ltb; apply Z.ltb_ge, Hm).
  reflexivity.
Qed.

(** X21: [display] prints the line of the node with [level] tabs and, when
    [level] is not over [max_level], the lines of all the nodes below it,
    each without a tab: the call on a child passes [level + 1] as its
    [max_level] and leaves its [level] at 0, so that neither the indentation
    nor the bound on the depth reaches the children.  With a [level] over
    [max_level] the line of the node is all that is printed. *)
Theorem display_lines (n : Node) (max_level level : Z) :
  (max_level < level ->
   display n max_level level = [line_of (Z.to_nat level) n])
  /\ (0 <= level <= max_level ->
      display n max_level level
      = line_of (Z.to_nat level) n
        :: map (line_of O) (flat_map nodes (children n))).
Proof.
  destruct n as [a cs l c t]. cbn [display children]. split; intros H.
  - replace (level >? max_level) with true
      by (symmetry; apply Z.gtb_lt; lia). reflexivity.
  - replace (level >? max_level) with false
      by (symmetry; rewrite Z.gtb_ltb; apply Z.ltb_ge; lia).
    assert (Hcs : flat_map (fun child => display child (level + 1) 0) cs
                  = map (line_of O) (flat_map nodes cs)).
    { induction cs as [| child cs IH]; cbn [flat_map]; [reflexivity |].
      rewrite map_app, IH, display_from_0 by lia. reflexivity. }
    rewrite Hcs. reflexivity.
Qed.

Lemma display_lines_witness :
  display colours_depth_1 3 0
  = line_of O colours_depth_1
    :: map (line_of O) (flat_map nodes (children colours_depth_1)).
Proof.
  apply (proj2 (display_lines colours_depth_1 3 0)). lia.
Defined.

(** ** The children of a node *)

Lemma build_children_categories {rt : PyRuntime} (fuel : nat)
  (data : list record) (attributes : list string) (max_depth : option Z)
  (depth : Z) (best : string) (subsets : list (list record * value))
  (cs : list Node) :
  mapM (build_child
          (fun subset category new_attributes =>
             _build_decision_tree fuel subset category new_attributes
               max_depth depth)
          data attributes best) subsets = Ok cs ->
  map category cs = map (fun sk => Some (snd sk)) subsets.
Proof.
  intros H. apply mapM_Forall2 in H.
  induction H as [| subset child subsets cs Hchild _ IH]; simpl;
    [reflexivity |].
  rewrite IH. f_equal. eapply build_child_category, Hchild.
Qed.

Lemma NoDup_map_Some {A : Type} (l : list A) :
  NoDup l -> NoDup (map Some l).
Proof.
  induction 1 as [| x l Hx _ IH]; simpl; constructor; [| assumption].
  intros Hin. apply in_map_iff in Hin.
  destruct Hin as (y & Hy & Hin). injection Hy as ->. contradiction.
Qed.

Lemma build_categories_call {rt : PyRuntime} (fuel : nat) :
  forall data cat attributes max_depth depth n,
    _build_decision_tree fuel data cat attributes max_depth depth = Ok n ->
    Forall (fun m => threshold m = None -> NoDup (map category (children m)))
           (nodes n).
Proof.
  induction fuel as [| fuel IH];
    intros data cat attributes max_depth depth n H; [discriminate |].
  apply build_inv in H.
  destruct H as (l & _ & [-> | (s & best & d1 & v & subsets & cs & _ & _ & Hs
                                 & Hbest & Hd1 & Hv & Hsplit & Hcs & ->)]).
  - constructor; [| constructor]. intros _. constructor.
  - apply nodes_node. split.
    + cbn [threshold children]. intros Hnone.
      destruct (select_inv _ _ _ _ Hs Hbest) as [_ (g & Hg)].
      apply attribute_gain_inv in Hg.
      destruct Hg as (d1' & v' & Hd1' & Hv' & Hthr).
      assert (d1' = d1) by congruence. subst d1'.
      assert (v' = v) by congruence. subst v'.
      destruct (represents_integer v).
      { destruct Hthr as [t Ht]. congruence. }
      rewrite (build_children_categories _ _ _ _ _ _ _ _ Hcs).
      cbn [split_on_attribute] in Hsplit. inv_bind Hsplit.
      injection Hsplit as <-. rewrite map_map. cbn [snd].
      apply group_fold in E; [| constructor | constructor].
      destruct E as (Hnd & _). rewrite <- (map_map fst Some).
      apply NoDup_map_Some, Hnd.
    + eapply mapM_Forall; [exact Hcs |].
      intros subset child _ Hchild. unfold build_child in Hchild.
      destruct (List.length (fst subset) =? 0)%nat.
      * inv_bind Hchild. injection Hchild as <-.
        constructor; [| constructor]. intros _. constructor.
      * inv_bind Hchild. eapply IH, Hchild.
Qed.

(** X22: at every node of a built tree that has no threshold, the
    categories of the children are pairwise distinct: the record that
    classification sends to the first child of its category could go to no
    other child. *)
Theorem build_children_distinct {rt : PyRuntime} (data : list record)
  (max_depth : option Z) (tree : Node) :
  build_decision_tree data max_depth = Ok tree ->
  forall n, In n (nodes tree) -> threshold n = None ->
            NoDup (map category (children n)).
Proof.
  unfold build_decision_tree. intros H. inv_bind H. inv_bind H. inv_bind H.
  apply build_categories_call in H. rewrite Forall_forall in H. exact H.
Qed.

Lemma build_children_distinct_witness :
  NoDup (map category (children colours_tree)).
Proof.
  apply (build_children_distinct (rt := reference_runtime) colours None
           colours_tree).
  - vm_compute. reflexivity.
  - simpl. auto.
  - reflexivity.
Defined.

(** * The gain in exact arithmetic *)

Lemma gain_in_floats {rt : PyRuntime} (data : list record) (a : string)
  (thr : option Z) :
  get_information_gain data a thr
  = (c <- get_counts data a thr ;;
     Ok (information_gain_in float_arithmetic c (List.length data))).
Proof. reflexivity. Qed.

(** Every record is counted once. *)
Lemma counts_of_all_records {rt : PyRuntime} (data : list record)
  (a : string) (thr : option Z) (c : counts) :
  get_counts data a thr = Ok c ->
  (fst (totals c) + snd (totals c) = List.length data)%nat.
Proof.
  destruct thr as [t |]; simpl.
  - unfold get_counts_threshold. intros H. inv_bind H.
    destruct x as [below above]. injection H as <-.
    apply threshold_counts_total in E.
    rewrite !totals_cons. unfold totals. simpl in *. lia.
  - intros H.
    assert (Hgen : forall l c0 c',
               foldM (fun counts item =>
                        cl <- getitem "class" item ;;
                        k <- getitem a item ;;
                        Ok (counts_add k (negb (value_eqb cl (VInt 0))) counts))
                     l c0 = Ok c' ->
               (fst (totals c') + snd (totals c')
                = fst (totals c0) + snd (totals c0) + List.length l)%nat).
    { clear H. induction l as [| r l IH]; simpl; intros c0 c' H.
      - injection H as <-. lia.
      - inv_bind H. apply IH in H. rewrite H.
        inv_bind E. inv_bind E. injection E as <-.
        rewrite totals_counts_add. lia. }
    apply Hgen in H. exact H.
Qed.

Section ExactGain.

Local Open Scope R_scope.

Lemma ln_le_minus_1 (x : R) : 0 < x -> ln x <= x - 1.
Proof.
  intros Hx. destruct (Req_dec x 1) as [-> | Hne].
  - rewrite ln_1. lra.
  - left. apply exp_lt_inv. rewrite exp_ln by assumption.
    assert (H := exp_ineq1 (x - 1)). 
    assert (x - 1 <> 0) by lra. specialize (H H0). lra.
Qed.

Lemma xlnx_0 (t : nat) : xlnx 0 t = 0.
Proof. unfold xlnx. simpl. ring. Qed.

Lemma xlnx_same (t : nat) : xlnx t t = 0.
Proof.
  unfold xlnx. destruct t as [| t]; [simpl; ring |].
  unfold Rdiv. rewrite Rinv_r by (apply not_0_INR; discriminate).
  rewrite ln_1. ring.
Qed.

Lemma xlnx_term (r : R) (x t : nat) :
  0 < r -> (x <= t)%nat ->
  INR x * ln r - xlnx x t <= INR t * r - INR x.
Proof.
  intros Hr Hxt. destruct x as [| x].
  - rewrite xlnx_0. simpl. assert (0 <= INR t) by apply pos_INR. nra.
  - assert (Hx : 0 < INR (S x)) by (apply lt_0_INR; lia).
    assert (Ht : 0 < INR t) by (apply lt_0_INR; lia).
    unfold xlnx. set (a := INR (S x)) in *. set (b := INR t) in *.
    assert (Hq : 0 < a / b) by (apply Rdiv_lt_0_compat; assumption).
    assert (Hy : 0 < r * b / a).
    { apply Rdiv_lt_0_compat; [| assumption]. apply Rmult_lt_0_compat; assumption. }
    assert (Hln : ln r - ln (a / b) = ln (r * b / a)).
    { replace (r * b / a) with (r * / (a / b)) by (field; lra).
      rewrite ln_mult; [| assumption | now apply Rinv_0_lt_compat].
      rewrite ln_Rinv by assumption. ring. }
    replace (a * ln r - a * ln (a / b)) with (a * (ln r - ln (a / b))) by ring.
    rewrite Hln. assert (H := ln_le_minus_1 _ Hy).
    apply Rmult_le_compat_l with (r := a) in H; [| lra].
    replace (a * (r * b / a - 1)) with (b * r - a) in H by (field; lra).
    exact H.
Qed.

Lemma xlnx_sum_bound (r : R) (sel : nat * nat -> nat) (c : counts) :
  0 < r -> (forall p, (sel p <= fst p + snd p)%nat) ->
  INR (count_sum sel c) * ln r - xlnx_sum sel c
  <= INR (count_sum total_of c) * r - INR (count_sum sel c).
Proof.
  intros Hr Hsel. induction c as [| [k p] c IH]; simpl.
  - lra.
  - unfold total_of at 1. rewrite !plus_INR.
    assert (H := xlnx_term r (sel p) (fst p + snd p) Hr (Hsel p)).
    rewrite plus_INR in H. simpl fst. simpl snd. lra.
Qed.

Lemma xlnx_sum_0 (sel : nat * nat -> nat) (c : counts) :
  count_sum sel c = 0%nat -> xlnx_sum sel c = 0.
Proof.
  induction c as [| [k p] c IH]; simpl; intros H; [reflexivity |].
  assert (sel p = 0%nat) as -> by lia. rewrite xlnx_0, IH by lia. ring.
Qed.

Lemma count_sum_le (sel : nat * nat -> nat) (c : counts) :
  (forall p, (sel p <= fst p + snd p)%nat) ->
  (count_sum sel c <= count_sum total_of c)%nat.
Proof.
  intros Hsel. induction c as [| [k p] c IH]; simpl; [lia |].
  specialize (Hsel p). unfold total_of at 1. lia.
Qed.

(** The log-sum inequality. *)
Lemma log_sum (sel : nat * nat -> nat) (c : counts) :
  (forall p, (sel p <= fst p + snd p)%nat) ->
  xlnx (count_sum sel c) (count_sum total_of c) <= xlnx_sum sel c.
Proof.
  intros Hsel. destruct (Nat.eq_dec (count_sum sel c) 0) as [H0 | H0].
  - rewrite xlnx_sum_0 by assumption. rewrite H0, xlnx_0. lra.
  - assert (Hle := count_sum_le sel c Hsel).
    assert (Ha : 0 < INR (count_sum sel c)) by (apply lt_0_INR; lia).
    assert (Hn : 0 < INR (count_sum total_of c)) by (apply lt_0_INR; lia).
    assert (Hr : 0 < INR (count_sum sel c) / INR (count_sum total_of c))
      by (apply Rdiv_lt_0_compat; assumption).
    assert (H := xlnx_sum_bound _ sel c Hr Hsel).
    unfold xlnx.
    replace (INR (count_sum total_of c)
             * (INR (count_sum sel c) / INR (count_sum total_of c))
             - INR (count_sum sel c)) with 0 in H by (field; lra).
    lra.
Qed.

Lemma totals_count_sum (c : counts) :
  totals c = (count_sum fst c, count_sum snd c).
Proof.
  induction c as [| kc c IH]; [reflexivity |].
  rewrite totals_cons, IH. reflexivity.
Qed.

Lemma count_sum_total (c : counts) :
  count_sum total_of c = (count_sum fst c + count_sum snd c)%nat.
Proof.
  induction c as [| [k p] c IH]; simpl; [reflexivity |].
  unfold total_of at 1. lia.
Qed.

Lemma xlnx_sum_cons (sel : nat * nat -> nat) (k : value) (p : nat * nat)
  (c : counts) :
  xlnx_sum sel ((k, p) :: c)
  = xlnx (sel p) (fst p + snd p) + xlnx_sum sel c.
Proof. reflexivity. Qed.

(** The loop of lines 328-335 over the reals, for [n > 0]. *)
Lemma conditional_entropy_real (n : nat) (c : counts) (acc : R) :
  (0 < n)%nat ->
  @eq R (fold_left
    (fun acc kc =>
       let c0 := fst (snd kc) in
       let c1 := snd (snd kc) in
       if (c0 =? 0)%nat || (c1 =? 0)%nat then acc
       else
         let total := (c0 + c1)%nat in
         let proportion := divide real_arithmetic (of_count real_arithmetic total) (of_count real_arithmetic n) in
         let label_0 := proportion_log real_arithmetic c0 total in
         let label_1 := proportion_log real_arithmetic c1 total in
         plus real_arithmetic acc (times real_arithmetic proportion (plus real_arithmetic label_0 label_1)))
    c acc)
  (acc + (xlnx_sum fst c + xlnx_sum snd c) / (INR n * ln 2)).
Proof.
  intros Hn. assert (Hn' : 0 < INR n) by (apply lt_0_INR; lia).
  assert (Hln2 : 0 < ln 2) by (rewrite <- ln_1; apply ln_increasing; lra).
  revert acc. induction c as [| [k [a b]] c IH]; intros acc.
  - simpl. field. lra.
  - rewrite !xlnx_sum_cons. cbn [fold_left fst snd]. rewrite IH.
    destruct a as [| a].
    + cbn [Nat.eqb orb Nat.add]. rewrite xlnx_0, xlnx_same. field. lra.
    + destruct b as [| b].
      * cbn [Nat.eqb orb]. rewrite Nat.add_0_r, xlnx_0, xlnx_same. field. lra.
      * cbn [Nat.eqb orb]. unfold proportion_log.
        cbn [real_arithmetic plus times divide of_count logarithm].
        unfold xlnx.
        assert (0 < INR (S a + S b)) by (apply lt_0_INR; lia).
        field. lra.
Qed.

Lemma counts_all_zero (c : counts) :
  count_sum total_of c = 0%nat ->
  Forall (fun kc => fst (snd kc) = 0%nat) c.
Proof.
  induction c as [| [k p] c IH]; simpl; intros H; constructor.
  - unfold total_of in H. simpl. lia.
  - apply IH. lia.
Qed.

(** The loop of lines 328-335 when no record is of class 0: every
    category is skipped. *)
Lemma conditional_entropy_skips (A : arithmetic) (n : nat) (c : counts)
  (acc : number A) :
  Forall (fun kc => fst (snd kc) = 0%nat) c ->
  fold_left
    (fun acc kc =>
       let c0 := fst (snd kc) in
       let c1 := snd (snd kc) in
       if (c0 =? 0)%nat || (c1 =? 0)%nat then acc
       else
         let total := (c0 + c1)%nat in
         let proportion := divide A (of_count A total) (of_count A n) in
         let label_0 := proportion_log A c0 total in
         let label_1 := proportion_log A c1 total in
         plus A acc (times A proportion (plus A label_0 label_1)))
    c acc
  = acc.
Proof.
  intros Hz. revert acc.
  induction Hz as [| kc c Hkc _ IH]; intros acc; [reflexivity |].
  cbn [fold_left]. rewrite Hkc. cbn [Nat.eqb orb]. apply IH.
Qed.

(** The entropy of line 325 over the reals, for [n > 0]. *)
Lemma entropy_real (a b n : nat) :
  (a + b)%nat = n -> (0 < n)%nat ->
  @eq R
    (if negb (a =? 0)%nat && negb (b =? 0)%nat
     return number real_arithmetic
     then negate real_arithmetic
            (plus real_arithmetic (proportion_log real_arithmetic a n)
                                  (proportion_log real_arithmetic b n))
     else zero real_arithmetic)
    (- (xlnx a n + xlnx b n) / (INR n * ln 2)).
Proof.
  intros Hn Hpos.
  assert (Hn' : 0 < INR n) by (apply lt_0_INR; lia).
  assert (Hln2 : 0 < ln 2) by (rewrite <- ln_1; apply ln_increasing; lra).
  destruct a as [| a].
  - cbn [Nat.eqb negb andb real_arithmetic zero]. simpl in Hn.
    rewrite Hn, xlnx_0, xlnx_same. field. lra.
  - destruct b as [| b].
    + cbn [Nat.eqb negb andb real_arithmetic zero]. rewrite Nat.add_0_r in Hn.
      rewrite Hn, xlnx_0, xlnx_same. field. lra.
    + cbn [Nat.eqb negb andb]. unfold proportion_log, xlnx.
      cbn [real_arithmetic plus times divide of_count logarithm negate].
      field. lra.
Qed.

Lemma gain_real_nonneg (c : counts) (n : nat) :
  (fst (totals c) + snd (totals c))%nat = n ->
  0 <= information_gain_in real_arithmetic c n.
Proof.
  intros Hn. rewrite totals_count_sum in *. cbn [fst snd] in Hn.
  unfold information_gain_in. rewrite totals_count_sum. cbn [fst snd].
  rewrite <- count_sum_total in Hn.
  destruct (Nat.eq_dec n 0) as [-> | Hpos].
  - assert (Hz := counts_all_zero c Hn).
    rewrite (conditional_entropy_skips real_arithmetic _ _ _ Hz).
    cbn [real_arithmetic minus times minus_one zero negate plus].
    rewrite count_sum_total in Hn.
    assert (count_sum fst c = 0%nat) as -> by lia.
    cbn [Nat.eqb negb andb]. lra.
  - rewrite conditional_entropy_real by lia.
    rewrite count_sum_total in Hn.
    rewrite (entropy_real _ _ _ Hn) by lia.
    rewrite <- count_sum_total in Hn.
    cbn [real_arithmetic minus times minus_one zero negate plus].
    assert (Hn' : 0 < INR n) by (apply lt_0_INR; lia).
    assert (Hln2 : 0 < ln 2) by (rewrite <- ln_1; apply ln_increasing; lra).
    assert (H0 := log_sum fst c ltac:(intros; lia)).
    assert (H1 := log_sum snd c ltac:(intros; lia)).
    rewrite Hn in H0, H1.
    set (s := xlnx_sum fst c + xlnx_sum snd c) in *.
    set (e := xlnx (count_sum fst c) n + xlnx (count_sum snd c) n) in *.
    replace (- e / (INR n * ln 2) - (0 + s / (INR n * ln 2)) * -1)
      with ((s - e) / (INR n * ln 2)) by (field; lra).
    apply Rmult_le_pos; [unfold s, e; lra |].
    left. apply Rinv_0_lt_compat. apply Rmult_lt_0_compat; assumption.
Qed.

End ExactGain.

(** C3, as the code has it: the value that [get_information_gain] returns
    is the expression of lines 316-338 (the entropy of the classes minus
    the conditional entropy weighted by the counts, a category with a zero
    count contributing 0) evaluated in binary64, and the same expression
    evaluated in the real numbers, on the same counts, is not negative. *)
Theorem information_gain_exact {rt : PyRuntime} (data : list record)
  (a : string) (thr : option Z) (c : counts) :
  get_counts data a thr = Ok c ->
  get_information_gain data a thr
  = Ok (information_gain_in float_arithmetic c (List.length data))
  /\ (0 <= information_gain_in real_arithmetic c (List.length data))%R.
Proof.
  intros H. split.
  - rewrite gain_in_floats, H. reflexivity.
  - apply gain_real_nonneg. eapply counts_of_all_records, H.
Qed.

Lemma information_gain_exact_witness :
  get_information_gain (rt := reference_runtime) nine_pairs "kind" None
  = Ok (information_gain_in (float_arithmetic (rt := reference_runtime))
          nine_counts (List.length nine_pairs))
  /\ (0 <= information_gain_in real_arithmetic nine_counts
             (List.length nine_pairs))%R.
Proof.
  apply (information_gain_exact (rt := reference_runtime) nine_pairs "kind"
           None nine_counts).
  vm_compute. reflexivity.
Defined.

(** C3 as the specification states it: on [nine_pairs], every category
    holding one record of each class, the entropy is [1] and the nine
    weights [2 / 18] add up to the float above [1]: the gain returned is
    below 0, with a logarithm that is exact at [0.5]. *)
Lemma information_gain_negative :
  ~ (forall (rt : PyRuntime) (data : list record) (a : string)
            (thr : option Z) (g : float),
        data <> [] -> log2 0.5 = (-1)%float ->
        get_information_gain data a thr = Ok g ->
        (0 <=? g)%float = true).
Proof.
  intros H.
  assert (Hg : exists g,
             get_information_gain (rt := reference_runtime) nine_pairs "kind"
               None = Ok g /\ (0 <=? g)%float = false).
  { eexists. split; vm_compute; reflexivity. }
  destruct Hg as (g & Hg & Hneg).
  specialize (H reference_runtime nine_pairs "kind" None g).
  rewrite H in Hneg; [discriminate | discriminate | | exact Hg].
  vm_compute. reflexivity.
Qed.
